(** * Scoring engine of evaluation90.py

    A shallow embedding of the computational core of the Streamlit page
    [evaluation90.py]: the two price-scoring rules ([calc_standard] of
    Tab 1 and [calc_min_ratio] of Tab 2), the row-wise recomputation of
    the two derived columns, and the selection of the best-rated company.

    Numbers.  The page computes with Python floats.  They are modelled as
    exact rationals [Q]; infinities and rounding are outside the model.
    Equality of numbers is therefore [Qeq] (written [==]) unless a
    statement says that two results are even syntactically the same.
    The sidebar maxima are Python [int]s and are kept as [Z]; [float(n)]
    is [inject_Z n].

    Blank cells.  A [Row] holds a number in every number column, so the
    tables of [recompute], [rank] and [run] are tables without blank
    cells.  A row that the dynamic editor has just added has blank (NaN)
    cells; [calc_standard_cells] is [calc_standard] on such rows, and it
    agrees with [calc_standard] wherever every cell holds a number. *)

From Stdlib Require Import QArith Qminmax Lqa List String ZArith Lia Bool.
From Stdlib Require Import Permutation.
Import ListNotations.
Open Scope Q_scope.

(** ** Python arithmetic *)

(** Comparisons on floats, as booleans. *)
Definition py_le (x y : Q) : bool := Qle_bool x y.
Definition py_ge (x y : Q) : bool := Qle_bool y x.
Definition py_gt (x y : Q) : bool := negb (Qle_bool x y).

Infix "<=?" := py_le (at level 70, no associativity) : Q_scope.
Infix ">=?" := py_ge (at level 70, no associativity) : Q_scope.
Infix ">?" := py_gt (at level 70, no associativity) : Q_scope.

(** [float(n)] for an [int] n. *)
Definition float (n : Z) : Q := inject_Z n.

(** A run of Python code either raises [ZeroDivisionError] or returns a
    value; the second component of [Done] counts the divisions that were
    executed on the way, so that "no division is performed" is a
    statement about the result of a run. *)
Inductive Run (A : Type) : Type :=
| Done (value : A) (divisions : nat)
| ZeroDivisionError.

Arguments Done {A} value divisions.
Arguments ZeroDivisionError {A}.

Definition ret {A : Type} (a : A) : Run A := Done a 0.

Definition bind {A B : Type} (m : Run A) (k : A -> Run B) : Run B :=
  match m with
  | ZeroDivisionError => ZeroDivisionError
  | Done a n =>
      match k a with
      | ZeroDivisionError => ZeroDivisionError
      | Done b j => Done b (n + j)
      end
  end.

Notation "x <- m ;; k" := (bind m (fun x => k))
  (at level 61, m at next level, right associativity).

(** [x / y] on Python floats: raises on a zero divisor. *)
Definition truediv (x y : Q) : Run Q :=
  if Qeq_bool y 0 then ZeroDivisionError else Done (x / y) 1.

(** ** The bidder table *)

(** One row of the edited DataFrame.  Columns, in order:
    会社名, ①実績, ②技術提案, ③地域貢献, 入札価格, ④工事費評価, ⑤削減提案,
    合計点.  ④工事費評価 and 合計点 are the two derived columns. *)
Record Row : Type := mkRow {
  col_name  : string;
  col_s1    : Q;
  col_s2    : Q;
  col_s3    : Q;
  col_price : Q;
  col_s4    : Q;
  col_s5    : Q;
  col_total : Q
}.

(** A DataFrame with those columns is the list of its rows, in index
    order.  The column set is fixed by the type, so the tests
    ["入札価格" in df.columns] and ["合計点" in df.columns] always hold. *)
Definition DataFrame : Type := list Row.

(** [df.empty] *)
Definition empty (df : DataFrame) : bool :=
  match df with
  | [] => true
  | _ :: _ => false
  end.

(** [df.apply(f, axis=1)]: [f] on every row, top to bottom; the first
    exception aborts. *)
Fixpoint apply_rows {A : Type} (f : Row -> Run A) (df : DataFrame) : Run (list A) :=
  match df with
  | [] => ret []
  | row :: rest =>
      v <- f row ;;
      vs <- apply_rows f rest ;;
      ret (v :: vs)
  end.

(** [df[["④工事費評価", "合計点"]] = res]: the two derived columns are
    overwritten row by row, all other columns are kept. *)
Definition set_scores_row (row : Row) (res : Q * Q) : Row :=
  mkRow (col_name row) (col_s1 row) (col_s2 row) (col_s3 row)
        (col_price row) (fst res) (col_s5 row) (snd res).

Fixpoint set_scores (df : DataFrame) (res : list (Q * Q)) : DataFrame :=
  match df, res with
  | row :: rest, r :: rs => set_scores_row row r :: set_scores rest rs
  | _, _ => df
  end.

(** ** Tab 2 helpers that do not depend on the sidebar *)

(** [df[df["入札価格"] > 0]["入札価格"]] *)
Definition valid_prices (df : DataFrame) : list Q :=
  map col_price (filter (fun row => col_price row >? 0) df).

(** [valid_prices.min()] when there is a valid price, [0] otherwise. *)
Definition min_price (df : DataFrame) : Q :=
  match valid_prices df with
  | [] => 0
  | p :: ps => fold_left Qmin ps p
  end.

(** ** Winner selection *)

(** [Series.idxmax()]: position of the first occurrence of the maximum.
    [argmax_from best best_i i xs] scans [xs], whose head has position
    [i], and moves to a later position only for a strictly larger value. *)
Fixpoint argmax_from (best : Q) (best_i i : nat) (xs : list Q) : nat :=
  match xs with
  | [] => best_i
  | x :: xs' =>
      if x >? best then argmax_from x i (S i) xs'
      else argmax_from best best_i (S i) xs'
  end.

Definition idxmax (xs : list Q) : option nat :=
  match xs with
  | [] => None
  | x :: xs' => Some (argmax_from x 0%nat 1%nat xs')
  end.

(** [Series.max()] *)
Definition series_max (xs : list Q) : option Q :=
  match xs with
  | [] => None
  | x :: xs' => Some (fold_left Qmax xs' x)
  end.

(** The "結果表示" block of either tab: nothing is shown for an empty
    table, otherwise the name at [idxmax] of 合計点 and the maximum of
    合計点. *)
Definition rank (df : DataFrame) : option (string * Q) :=
  if empty df then None
  else
    match idxmax (map col_total df), series_max (map col_total df) with
    | Some i, Some score =>
        match nth_error df i with
        | Some row => Some (col_name row, score)
        | None => None
        end
    | _, _ => None
    end.

(** ** The sidebar and the two models *)

Section Sidebar.

(** Values of the sidebar widgets (module-level globals of the page). *)
Variables max_s1 max_s2 max_s3 max_s4 max_s5 : Z.
Variable target_price : Q.

Definition full_score_price : Q := target_price * 0.8.

Definition get_initial_data : DataFrame :=
  [ mkRow "A社" (float max_s1) (float max_s2 * 0.94) (float max_s3)
          420.0 0 (float max_s5) 0;
    mkRow "B社" (float max_s1 * 0.8) (float max_s2 * 0.77) (float max_s3 * 0.8)
          380.0 0 (float max_s5) 0;
    mkRow "C社" (float max_s1 * 0.6) (float max_s2 * 0.61) (float max_s3 * 0.6)
          340.0 0 (float max_s5) 0 ].

(** *** Tab 1: linear deduction *)

Definition calc_standard (row : Row) : Run (Q * Q) :=
  let price := col_price row in
  s4 <- (if price <=? full_score_price then ret (float max_s4)
         else if price >=? target_price then ret 0
         else
           let range_width := target_price - full_score_price in
           let price_diff := target_price - price in
           q <- truediv price_diff range_width ;;
           ret (q * float max_s4)) ;;
  let total := col_s1 row + col_s2 row + col_s3 row + s4 + col_s5 row in
  ret (s4, total).

Definition recompute_tab1 (edited_df : DataFrame) : Run DataFrame :=
  if negb (empty edited_df) then
    res <- apply_rows calc_standard edited_df ;;
    ret (set_scores edited_df res)
  else ret edited_df.

(** *** Tab 2: ratio to the lowest bid *)

(** [calc_min_ratio] closes over [min_price]; here it is a parameter. *)
Definition calc_min_ratio (min_price : Q) (row : Row) : Run (Q * Q) :=
  let price := col_price row in
  s4 <- (if (price >? 0) && (min_price >? 0) then
           q <- truediv min_price price ;;
           ret (q * float max_s4)
         else ret 0) ;;
  let total := col_s1 row + col_s2 row + col_s3 row + s4 + col_s5 row in
  ret (s4, total).

Definition recompute_tab2 (edited_df : DataFrame) : Run DataFrame :=
  if negb (empty edited_df) then
    let min_price := min_price edited_df in
    res <- apply_rows (calc_min_ratio min_price) edited_df ;;
    ret (set_scores edited_df res)
  else ret edited_df.

End Sidebar.

(** The model is chosen by the tab. *)
Inductive Model : Type := Standard | MinRatio.

Definition recompute (max_s4 : Z) (target_price : Q) (m : Model)
    (df : DataFrame) : Run DataFrame :=
  match m with
  | Standard => recompute_tab1 max_s4 target_price df
  | MinRatio => recompute_tab2 max_s4 df
  end.

(** The price score a model gives to one row of a table. *)
Definition price_score (max_s4 : Z) (target_price : Q) (m : Model)
    (df : DataFrame) (row : Row) : Run Q :=
  match m with
  | Standard => r <- calc_standard max_s4 target_price row ;; ret (fst r)
  | MinRatio => r <- calc_min_ratio max_s4 (min_price df) row ;; ret (fst r)
  end.

(** ** The rest of the page *)

(** [total_max_score], the sum of the five sidebar maxima. *)
Definition total_max_score (max_s1 max_s2 max_s3 max_s4 max_s5 : Z) : Z :=
  max_s1 + max_s2 + max_s3 + max_s4 + max_s5.

(** [st.column_config.NumberColumn]: the limits of an editable number
    column ([None] where the call gives no limit) and whether the column
    is read-only.  Labels, help texts, steps and formats are left out. *)
Record NumberColumn : Type := mkNumberColumn {
  min_value : option Q;
  max_value : option Q;
  disabled  : bool
}.

(** [get_column_config()]: one entry per number column, in the order
    ①実績, ②技術提案, ③地域貢献, 入札価格, ④工事費評価, ⑤削減提案, 合計点
    (会社名 is a text column without limits). *)
Record ColumnConfig : Type := mkColumnConfig {
  cfg_s1    : NumberColumn;
  cfg_s2    : NumberColumn;
  cfg_s3    : NumberColumn;
  cfg_price : NumberColumn;
  cfg_s4    : NumberColumn;
  cfg_s5    : NumberColumn;
  cfg_total : NumberColumn
}.

Definition get_column_config (max_s1 max_s2 max_s3 max_s5 : Z) : ColumnConfig :=
  mkColumnConfig
    (mkNumberColumn (Some 0) (Some (float max_s1)) false)
    (mkNumberColumn (Some 0) (Some (float max_s2)) false)
    (mkNumberColumn (Some 0) (Some (float max_s3)) false)
    (mkNumberColumn (Some 0) None false)
    (mkNumberColumn None None true)
    (mkNumberColumn (Some 0) (Some (float max_s5)) false)
    (mkNumberColumn None None true).

(** [DataFrame.equals] on tables of this shape: the same number of rows
    and, row by row, the same name and numerically equal numbers.
    (Column dtypes are not modelled.) *)
Definition row_equals (a b : Row) : bool :=
  String.eqb (col_name a) (col_name b)
  && Qeq_bool (col_s1 a) (col_s1 b) && Qeq_bool (col_s2 a) (col_s2 b)
  && Qeq_bool (col_s3 a) (col_s3 b) && Qeq_bool (col_price a) (col_price b)
  && Qeq_bool (col_s4 a) (col_s4 b) && Qeq_bool (col_s5 a) (col_s5 b)
  && Qeq_bool (col_total a) (col_total b).

Fixpoint df_equals (a b : DataFrame) : bool :=
  match a, b with
  | [], [] => true
  | x :: a', y :: b' => row_equals x y && df_equals a' b'
  | _, _ => false
  end.

(** What the installed Streamlit offers for a rerun, and what
    [safe_rerun()] does with it: [st.rerun()] and
    [st.experimental_rerun()] stop the script and start it again, the
    fallback writes a hint and lets the script go on. *)
Inductive StreamlitApi : Type := HasRerun | HasExperimentalRerun | HasNeither.

Inductive RerunEffect : Type := ScriptRestarts | RefreshHint.

Definition safe_rerun (api : StreamlitApi) : RerunEffect :=
  match api with
  | HasRerun => ScriptRestarts
  | HasExperimentalRerun => ScriptRestarts
  | HasNeither => RefreshHint
  end.

(** The two tables kept in [st.session_state]; [None] is a missing key. *)
Record SessionState : Type := mkSession {
  df_tab1_v3 : option DataFrame;
  df_tab2_v3 : option DataFrame
}.

(** Exceptions a run of the page can end with. *)
Inductive PyError : Type :=
| NameError (name : string)
| ZeroDivision.

(** One [go.Bar] trace: name, x (the 会社名 column), y (a score column)
    and marker colour ([text] repeats y and is left out). *)
Record Bar : Type := mkBar {
  bar_name     : string;
  bar_x        : list string;
  bar_y        : list Q;
  marker_color : string
}.

(** The elements a run puts on the page, as far as they carry data: the
    two [st.info] boxes, the fallback hint of [safe_rerun] and the
    stacked bar chart with the upper end of its y axis. *)
Inductive Element : Type :=
| InfoMinPrice (min_price : Q)
| InfoBest (tab : string) (name : string) (score : Q)
| WriteRefreshHint
| PlotlyChart (title : string) (bars : list Bar) (yaxis_max : Q).

Inductive Ending : Type :=
| Finished
| Restarted
| Raised (e : PyError).

Record Outcome : Type := mkOutcome {
  session  : SessionState;
  rendered : list Element;
  ending   : Ending
}.

(** The score columns drawn in the charts. *)
Definition items : list string :=
  ["①実績"%string; "②技術提案"%string; "③地域貢献"%string;
   "④工事費評価"%string; "⑤削減提案"%string].

(** [df[name]] for a number column; [None] when [name] is not one. *)
Definition number_column (name : string) : option (Row -> Q) :=
  if String.eqb name "①実績" then Some col_s1
  else if String.eqb name "②技術提案" then Some col_s2
  else if String.eqb name "③地域貢献" then Some col_s3
  else if String.eqb name "入札価格" then Some col_price
  else if String.eqb name "④工事費評価" then Some col_s4
  else if String.eqb name "⑤削減提案" then Some col_s5
  else if String.eqb name "合計点" then Some col_total
  else None.

(** The loop [for i, item in enumerate(items)] from position [i] on.
    [colors] is [None] while the name is unbound; evaluating
    [colors[i % len(colors)]] then raises [NameError], and on an empty
    palette the modulo raises [ZeroDivisionError]. *)
Fixpoint add_traces (colors : option (list string)) (df : DataFrame)
    (i : nat) (its : list string) : PyError + list Bar :=
  match its with
  | [] => inr []
  | item :: rest =>
      match number_column item with
      | None => add_traces colors df (S i) rest
      | Some col =>
          match colors with
          | None => inl (NameError "colors")
          | Some [] => inl ZeroDivision
          | Some (c0 :: cs) =>
              match add_traces colors df (S i) rest with
              | inl e => inl e
              | inr bars =>
                  inr (mkBar item (map col_name df) (map col df)
                             (nth (Nat.modulo i (List.length (c0 :: cs)))
                                  (c0 :: cs) c0)
                       :: bars)
              end
          end
      end
  end.

Section Page.

(** Sidebar values, the palette [px.colors.qualitative.Pastel], the
    Streamlit at hand, and the table editor: [data_editor key data] is
    the table [st.data_editor(data, key=key)] returns, i.e. [data] with
    the evaluator's pending edits applied. *)
Variables max_s1 max_s2 max_s3 max_s4 max_s5 : Z.
Variable target_price : Q.
Variable Pastel : list string.
Variable api : StreamlitApi.
Variable data_editor : string -> DataFrame -> DataFrame.

(** "Session State の初期化": a missing key gets the initial table, a
    present one is kept. *)
Definition init_session (s : SessionState) : DataFrame * DataFrame :=
  (match df_tab1_v3 s with
   | Some d => d
   | None => get_initial_data max_s1 max_s2 max_s3 max_s5
   end,
   match df_tab2_v3 s with
   | Some d => d
   | None => get_initial_data max_s1 max_s2 max_s3 max_s5
   end).

(** "保存とリロード": when the recomputed table differs from the stored
    one it is stored and [safe_rerun()] is called.  Returns the table
    now stored, what was written, and whether the script restarts. *)
Definition save_and_reload (stored edited : DataFrame)
    : DataFrame * list Element * bool :=
  if negb (df_equals edited stored) then
    match safe_rerun api with
    | ScriptRestarts => (edited, [], true)
    | RefreshHint => (edited, [WriteRefreshHint], false)
    end
  else (stored, [], false).

(** "結果表示" and "グラフ表示" of a tab: the best-rated company and the
    stacked chart, or an exception from the trace loop (the info box is
    on the page by then). *)
Definition show_results (tab title : string) (colors : option (list string))
    (df : DataFrame) : list Element * option PyError :=
  if negb (empty df) then
    match rank df with
    | Some (win, score) =>
        match add_traces colors df 0 items with
        | inl e => ([InfoBest tab win score], Some e)
        | inr bars =>
            ([InfoBest tab win score;
              PlotlyChart title bars
                (float (total_max_score max_s1 max_s2 max_s3 max_s4 max_s5)
                 * 1.1)],
             None)
        end
    | None => ([], None)
    end
  else ([], None).

(** One run of the script from the session state [s]. *)
Definition run (s : SessionState) : Outcome :=
  let (stored1, stored2) := init_session s in
  let edited_df_t1 := data_editor "editor_tab1" stored1 in
  match recompute_tab1 max_s4 target_price edited_df_t1 with
  | ZeroDivisionError =>
      mkOutcome (mkSession (Some stored1) (Some stored2)) []
                (Raised ZeroDivision)
  | Done edited_df_t1 _ =>
      let '(stored1, out1, restart1) := save_and_reload stored1 edited_df_t1 in
      let s1 := mkSession (Some stored1) (Some stored2) in
      if restart1 then mkOutcome s1 out1 Restarted
      else
        (* [colors] is assigned inside the display block of Tab 1 only *)
        let colors := if negb (empty edited_df_t1) then Some Pastel else None in
        let (shown1, err1) :=
          show_results "Tab1" "【標準】評価スコア構成" (Some Pastel) edited_df_t1 in
        match err1 with
        | Some e => mkOutcome s1 (out1 ++ shown1) (Raised e)
        | None =>
            let edited_df_t2 := data_editor "editor_tab2" stored2 in
            let info :=
              if negb (empty edited_df_t2) then
                match valid_prices edited_df_t2 with
                | [] => []
                | _ :: _ => [InfoMinPrice (min_price edited_df_t2)]
                end
              else [] in
            match recompute_tab2 max_s4 edited_df_t2 with
            | ZeroDivisionError =>
                mkOutcome s1 (out1 ++ shown1 ++ info) (Raised ZeroDivision)
            | Done edited_df_t2 _ =>
                let '(stored2, out2, restart2) :=
                  save_and_reload stored2 edited_df_t2 in
                let s2 := mkSession (Some stored1) (Some stored2) in
                if restart2 then
                  mkOutcome s2 (out1 ++ shown1 ++ info ++ out2) Restarted
                else
                  let (shown2, err2) :=
                    show_results "Tab2" "【別案】評価スコア構成" colors
                                 edited_df_t2 in
                  mkOutcome s2 (out1 ++ shown1 ++ info ++ out2 ++ shown2)
                    match err2 with
                    | Some e => Raised e
                    | None => Finished
                    end
            end
        end
  end.

End Page.

(** ** Rows with blank cells *)

(** A number cell as the editor returns it: a number, or NaN when the
    cell is blank. *)
Inductive Cell : Type :=
| Num (q : Q)
| NaN.

(** Comparisons with NaN are False. *)
Definition cell_le (x y : Cell) : bool :=
  match x, y with
  | Num a, Num b => a <=? b
  | _, _ => false
  end.

Definition cell_ge (x y : Cell) : bool :=
  match x, y with
  | Num a, Num b => a >=? b
  | _, _ => false
  end.

(** Sums, differences and products with NaN are NaN. *)
Definition cell_add (x y : Cell) : Cell :=
  match x, y with
  | Num a, Num b => Num (a + b)
  | _, _ => NaN
  end.

Definition cell_sub (x y : Cell) : Cell :=
  match x, y with
  | Num a, Num b => Num (a - b)
  | _, _ => NaN
  end.

Definition cell_mul (x y : Cell) : Cell :=
  match x, y with
  | Num a, Num b => Num (a * b)
  | _, _ => NaN
  end.

(** [x / y] on Python floats: a zero divisor raises whatever the
    dividend is, NaN included; otherwise NaN gives NaN. *)
Definition cell_truediv (x y : Cell) : Run Cell :=
  match y with
  | Num d =>
      if Qeq_bool d 0 then ZeroDivisionError
      else match x with
           | Num n => Done (Num (n / d)) 1
           | NaN => Done NaN 1
           end
  | NaN => Done NaN 1
  end.

(** A row of the edited table whose number cells may be blank. *)
Record EditedRow : Type := mkEditedRow {
  cell_name  : string;
  cell_s1    : Cell;
  cell_s2    : Cell;
  cell_s3    : Cell;
  cell_price : Cell;
  cell_s4    : Cell;
  cell_s5    : Cell;
  cell_total : Cell
}.

(** [calc_standard] on such a row. *)
Definition calc_standard_cells (max_s4 : Z) (target_price : Q)
    (row : EditedRow) : Run (Cell * Cell) :=
  let price := cell_price row in
  s4 <- (if cell_le price (Num (full_score_price target_price)) then
           ret (Num (float max_s4))
         else if cell_ge price (Num target_price) then ret (Num 0)
         else
           let range_width :=
             cell_sub (Num target_price)
                      (Num (full_score_price target_price)) in
           let price_diff := cell_sub (Num target_price) price in
           q <- cell_truediv price_diff range_width ;;
           ret (cell_mul q (Num (float max_s4)))) ;;
  let total :=
    cell_add (cell_add (cell_add (cell_add (cell_s1 row) (cell_s2 row))
                                 (cell_s3 row)) s4) (cell_s5 row) in
  ret (s4, total).

(** A row without blank cells, seen as an edited row. *)
Definition cells_of_row (row : Row) : EditedRow :=
  mkEditedRow (col_name row) (Num (col_s1 row)) (Num (col_s2 row))
              (Num (col_s3 row)) (Num (col_price row)) (Num (col_s4 row))
              (Num (col_s5 row)) (Num (col_total row)).

(** The row the editor adds: every number cell blank. *)
Definition blank_row : EditedRow :=
  mkEditedRow "" NaN NaN NaN NaN NaN NaN NaN.

(** ** Definitions used to state the properties *)

(** The sum formed at the end of both scoring functions. *)
Definition row_sum (row : Row) (s4 : Q) : Q :=
  col_s1 row + col_s2 row + col_s3 row + s4 + col_s5 row.

(** The piecewise rule of the standard model as the specification words
    it, with the threshold as a parameter of its own: full marks at or
    below the threshold, otherwise nothing at or above the target,
    otherwise the linear interpolation. *)
Definition linear_deduction_reference
    (maxScorePrice targetPrice fullScoreThreshold price : Q) : Q :=
  if Qlt_le_dec fullScoreThreshold price then
    if Qlt_le_dec price targetPrice then
      (targetPrice - price) / (targetPrice - fullScoreThreshold) * maxScorePrice
    else 0
  else maxScorePrice.

(** An edit of the 入札価格 cell of one row. *)
Definition with_price (row : Row) (p : Q) : Row :=
  mkRow (col_name row) (col_s1 row) (col_s2 row) (col_s3 row)
        p (col_s4 row) (col_s5 row) (col_total row).

(** Two rows that agree on every column the evaluator can edit. *)
Definition same_inputs (a b : Row) : Prop :=
  col_name a = col_name b /\ col_s1 a = col_s1 b /\ col_s2 a = col_s2 b /\
  col_s3 a = col_s3 b /\ col_price a = col_price b /\ col_s5 a = col_s5 b.

(** A value the editor lets through for a column with these limits. *)
Definition admits (c : NumberColumn) (v : Q) : Prop :=
  match min_value c with Some lo => lo <= v | None => True end /\
  match max_value c with Some hi => v <= hi | None => True end.

(** A row whose editable numbers respect the column configuration. *)
Definition row_admitted (cfg : ColumnConfig) (row : Row) : Prop :=
  admits (cfg_s1 cfg) (col_s1 row) /\ admits (cfg_s2 cfg) (col_s2 row) /\
  admits (cfg_s3 cfg) (col_s3 row) /\ admits (cfg_price cfg) (col_price row) /\
  admits (cfg_s5 cfg) (col_s5 row).

(** The y values of all bars of a chart at position [j], added up. *)
Definition stack_sum (bars : list Bar) (j : nat) : Q :=
  fold_right (fun b acc => nth j (bar_y b) 0 + acc) 0 bars.

(** A stored table on which a pass changes nothing that
    [DataFrame.equals] can see. *)
Definition settled (m : Model) (max_s4 : Z) (target_price : Q)
    (d : DataFrame) : Prop :=
  exists t n, recompute max_s4 target_price m d = Done t n /\
              df_equals t d = true.

(** A row function that always returns a price score together with the
    sum built on it, and one that looks at the editable columns only. *)
Definition scores_row (f : Row -> Run (Q * Q)) : Prop :=
  forall row, exists s4 n, f row = Done (s4, row_sum row s4) n.

Definition reads_inputs_only (f : Row -> Run (Q * Q)) : Prop :=
  forall a b, same_inputs a b -> f a = f b.

(** 合計点 is the sum of the five sub-scores of the same row. *)
Definition total_is_sum (row : Row) : Prop :=
  col_total row
  = col_s1 row + col_s2 row + col_s3 row + col_s4 row + col_s5 row.

(** * Properties *)

(** ** Comparisons and the run monad *)

Lemma py_le_true (x y : Q) : (x <=? y) = true <-> x <= y.
Proof. unfold py_le. apply Qle_bool_iff. Qed.

Lemma py_le_false (x y : Q) : (x <=? y) = false <-> y < x.
Proof.
  unfold py_le. split; intro H.
  - apply Qnot_le_lt. intro Hle. apply Qle_bool_iff in Hle. congruence.
  - destruct (Qle_bool x y) eqn:E; [|reflexivity].
    apply Qle_bool_iff in E. lra.
Qed.

Lemma py_ge_true (x y : Q) : (x >=? y) = true <-> y <= x.
Proof. unfold py_ge. apply Qle_bool_iff. Qed.

Lemma py_ge_false (x y : Q) : (x >=? y) = false <-> x < y.
Proof. unfold py_ge. apply (py_le_false y x). Qed.

Lemma py_gt_true (x y : Q) : (x >? y) = true <-> y < x.
Proof.
  unfold py_gt. rewrite negb_true_iff. apply (py_le_false x y).
Qed.

Lemma py_gt_false (x y : Q) : (x >? y) = false <-> x <= y.
Proof.
  unfold py_gt. rewrite negb_false_iff. apply (py_le_true x y).
Qed.

Lemma truediv_nonzero (x y : Q) : ~ y == 0 -> truediv x y = Done (x / y) 1.
Proof.
  intro H. unfold truediv.
  destruct (Qeq_bool y 0) eqn:E; [|reflexivity].
  apply Qeq_bool_iff in E. contradiction.
Qed.

Lemma truediv_zero (x y : Q) : y == 0 -> truediv x y = ZeroDivisionError.
Proof.
  intro H. unfold truediv. apply Qeq_bool_iff in H. now rewrite H.
Qed.

(** ** Tab 1: the three branches of [calc_standard] *)

Section Standard.

Variable max_s4 : Z.
Variable target_price : Q.

Local Abbreviation full := (full_score_price target_price).

Lemma range_width_pos (price : Q) :
  full < price -> price < target_price -> 0 < target_price - full.
Proof. intros H1 H2. lra. Qed.

Lemma calc_standard_full (row : Row) :
  col_price row <= full ->
  calc_standard max_s4 target_price row
  = Done (float max_s4, row_sum row (float max_s4)) 0.
Proof.
  intro H. apply py_le_true in H. unfold calc_standard.
  now rewrite H.
Qed.

Lemma calc_standard_zero (row : Row) :
  full < col_price row -> target_price <= col_price row ->
  calc_standard max_s4 target_price row = Done (0, row_sum row 0) 0.
Proof.
  intros H1 H2. apply py_le_false in H1. apply py_ge_true in H2.
  unfold calc_standard. now rewrite H1, H2.
Qed.

Lemma calc_standard_between (row : Row) :
  full < col_price row -> col_price row < target_price ->
  let s4 := (target_price - col_price row) / (target_price - full)
            * float max_s4 in
  calc_standard max_s4 target_price row = Done (s4, row_sum row s4) 1.
Proof.
  intros H1 H2 s4.
  assert (Hw : ~ target_price - full == 0) by lra.
  apply py_le_false in H1. apply py_ge_false in H2.
  unfold calc_standard. rewrite H1, H2.
  cbv zeta. rewrite (truediv_nonzero _ _ Hw). reflexivity.
Qed.

(** Every row falls into exactly one of the three branches. *)
Lemma calc_standard_cases (row : Row) :
  (col_price row <= full /\
   calc_standard max_s4 target_price row
   = Done (float max_s4, row_sum row (float max_s4)) 0)
  \/ (full < col_price row /\ target_price <= col_price row /\
      calc_standard max_s4 target_price row = Done (0, row_sum row 0) 0)
  \/ (full < col_price row /\ col_price row < target_price /\
      calc_standard max_s4 target_price row
      = Done ((target_price - col_price row) / (target_price - full)
              * float max_s4,
              row_sum row ((target_price - col_price row)
                           / (target_price - full) * float max_s4)) 1).
Proof.
  destruct (Qlt_le_dec full (col_price row)) as [H1|H1].
  - destruct (Qlt_le_dec (col_price row) target_price) as [H2|H2].
    + right; right. repeat split; try assumption.
      apply calc_standard_between; assumption.
    + right; left. repeat split; try assumption.
      apply calc_standard_zero; assumption.
  - left. split; [assumption|]. apply calc_standard_full; assumption.
Qed.

End Standard.

(** ** Claims about Tab 1 *)

(** On a row whose bid price is a number, the interpolation branch of
    [calc_standard] is reached only for a price strictly between the
    full-score price and the target price; its divisor
    [target_price - full_score_price] is then strictly positive, the
    division goes through, and [calc_standard] returns a result. *)
Lemma calc_standard_returns_on_numbers
    (max_s4 : Z) (target_price : Q) (row : Row) :
  ((col_price row <=? full_score_price target_price) = false ->
   (col_price row >=? target_price) = false ->
   0 < target_price - full_score_price target_price /\
   truediv (target_price - col_price row)
           (target_price - full_score_price target_price)
   = Done ((target_price - col_price row)
           / (target_price - full_score_price target_price)) 1)
  /\ exists s4 total n,
       calc_standard max_s4 target_price row = Done (s4, total) n.
Proof.
  split.
  - intros H1 H2. apply py_le_false in H1. apply py_ge_false in H2.
    assert (Hpos : 0 < target_price - full_score_price target_price)
      by (apply (range_width_pos target_price (col_price row)); assumption).
    split; [exact Hpos|]. apply truediv_nonzero. lra.
  - destruct (calc_standard_cases max_s4 target_price row)
      as [[_ E]|[[_ [_ E]]|[_ [_ E]]]]; rewrite E; eauto.
Qed.

(** [calc_standard_cells] is [calc_standard] on rows without blank
    cells. *)
Lemma calc_standard_cells_on_numbers
    (max_s4 : Z) (target_price : Q) (row : Row) :
  calc_standard_cells max_s4 target_price (cells_of_row row)
  = match calc_standard max_s4 target_price row with
    | Done (s4, total) n => Done (Num s4, Num total) n
    | ZeroDivisionError => ZeroDivisionError
    end.
Proof.
  unfold calc_standard_cells, calc_standard, cells_of_row. simpl.
  destruct (col_price row <=? full_score_price target_price);
    [reflexivity|].
  destruct (col_price row >=? target_price); [reflexivity|].
  unfold truediv.
  destruct (Qeq_bool (target_price - full_score_price target_price) 0);
    reflexivity.
Qed.

(** A blank bid price fails both comparisons and reaches the division:
    with a target price of 0 the divisor is 0 and the division raises,
    with any other target price the price score and the total are
    NaN. *)
Lemma calc_standard_cells_blank_price
    (max_s4 : Z) (target_price : Q) (row : EditedRow) :
  cell_price row = NaN ->
  (target_price == 0 ->
   calc_standard_cells max_s4 target_price row = ZeroDivisionError) /\
  (~ target_price == 0 ->
   calc_standard_cells max_s4 target_price row = Done (NaN, NaN) 1).
Proof.
  intro Hblank. unfold calc_standard_cells. rewrite Hblank. simpl.
  split; intro Ht.
  - assert (Hz : target_price - full_score_price target_price == 0)
      by (unfold full_score_price; lra).
    apply Qeq_bool_iff in Hz. now rewrite Hz.
  - assert (Hz : ~ target_price - full_score_price target_price == 0)
      by (unfold full_score_price; lra).
    destruct (Qeq_bool (target_price - full_score_price target_price) 0)
      eqn:E.
    + apply Qeq_bool_iff in E. contradiction.
    + simpl. destruct (cell_add (cell_add (cell_s1 row) (cell_s2 row))
                                (cell_s3 row)); reflexivity.
Qed.

(** C9.  The claim fails on the code for a blank bid price: with a
    target price of 0, [calc_standard] on the row the editor has just
    added reaches the interpolation branch with the divisor
    [target_price - full_score_price] equal to 0 and raises
    [ZeroDivisionError], where the claim has a strictly positive divisor
    and a result for every configuration and every row. *)
Theorem calc_standard_blank_price_zero_target_raises :
  cell_le (cell_price blank_row) (Num (full_score_price 0)) = false /\
  cell_ge (cell_price blank_row) (Num 0) = false /\
  cell_sub (Num 0) (Num (full_score_price 0)) = Num (0 - full_score_price 0) /\
  0 - full_score_price 0 == 0 /\
  calc_standard_cells 90 0 blank_row = ZeroDivisionError.
Proof.
  repeat split.
Qed.

(** C1, as the code has it.  With a target price of at most zero and a
    bid price of at least zero the divisor is not positive, no division
    is executed, and the price score is 0 -- except for a bid of exactly
    0 against a target of exactly 0, which the first comparison
    [price <= full_score_price] sends to the full-score branch. *)
Theorem calc_standard_nonpositive_target
    (max_s4 : Z) (target_price : Q) (row : Row) :
  target_price <= 0 -> 0 <= col_price row ->
  target_price - full_score_price target_price <= 0 /\
  exists s4,
    calc_standard max_s4 target_price row = Done (s4, row_sum row s4) 0 /\
    (target_price < 0 \/ 0 < col_price row -> s4 = 0) /\
    (target_price == 0 -> col_price row == 0 -> s4 = float max_s4).
Proof.
  intros Ht Hp. unfold full_score_price. split; [lra|].
  destruct (calc_standard_cases max_s4 target_price row)
    as [[H E]|[[H1 [H2 E]]|[H1 [H2 E]]]]; unfold full_score_price in *.
  - exists (float max_s4). split; [exact E|]. split.
    + intros [Hn|Hn]; lra.
    + reflexivity.
  - exists 0. split; [exact E|]. split.
    + reflexivity.
    + intros H0 Hp0. lra.
  - lra.
Qed.

Lemma calc_standard_nonpositive_target_witness :
  -100 - full_score_price (-100) <= 0 /\
  exists s4,
    calc_standard 90 (-100) (mkRow "A" 10 84.6 10 420 0 25 0)
    = Done (s4, row_sum (mkRow "A" 10 84.6 10 420 0 25 0) s4) 0 /\
    (-100 < 0 \/ 0 < 420 -> s4 = 0) /\
    (-100 == 0 -> 420 == 0 -> s4 = float 90).
Proof.
  apply (calc_standard_nonpositive_target
           90 (-100) (mkRow "A" 10 84.6 10 420 0 25 0)).
  - vm_compute. discriminate.
  - vm_compute. discriminate.
Defined.

(** C1 as stated fails: target price 0, bid price 0, maximum 90.  The
    target is not positive, the bid is not negative, and the row gets
    the full 90 points. *)
Lemma calc_standard_zero_target_zero_bid :
  let target_price := 0 in
  let row := mkRow "A" 0 0 0 0 0 0 0 in
  target_price <= 0 /\
  0 <= col_price row /\
  calc_standard 90 target_price row = Done (90, 90) 0 /\
  ~ 90 == 0.
Proof.
  cbv zeta. repeat split; try (vm_compute; discriminate).
Qed.

(** C10.  With a target price of at least zero, a bid of 0 is at or
    below the full-score price, so the first branch gives the full
    [max_s4] points (and no division is executed). *)
Theorem calc_standard_zero_bid
    (max_s4 : Z) (target_price : Q) (row : Row) :
  0 <= target_price -> col_price row == 0 ->
  0 <= full_score_price target_price /\
  calc_standard max_s4 target_price row
  = Done (float max_s4, row_sum row (float max_s4)) 0.
Proof.
  intros Ht Hp.
  assert (Hf : 0 <= full_score_price target_price)
    by (unfold full_score_price; lra).
  split; [exact Hf|]. apply calc_standard_full. lra.
Qed.

Lemma calc_standard_zero_bid_witness :
  0 <= full_score_price 420 /\
  calc_standard 90 420 (mkRow "A" 10 84.6 10 0 0 25 0)
  = Done (float 90, row_sum (mkRow "A" 10 84.6 10 0 0 25 0) (float 90)) 0.
Proof.
  apply (calc_standard_zero_bid 90 420 (mkRow "A" 10 84.6 10 0 0 25 0)).
  - vm_compute. discriminate.
  - reflexivity.
Defined.

(** For a positive target price the first two clauses of the piecewise
    rule exclude each other; they overlap only for a target price of at
    most zero, where the rule and the code both let the first one win. *)
Lemma full_and_zero_clauses_disjoint (target_price price : Q) :
  0 < target_price ->
  ~ (price <= full_score_price target_price /\ target_price <= price).
Proof.
  unfold full_score_price. intros Ht [H1 H2]. lra.
Qed.

(** C2.  For a threshold equal to [target_price * 0.8], the price score
    computed by [calc_standard] is the value of the piecewise reference
    definition at the row's price. *)
Theorem calc_standard_refines_reference
    (max_s4 : Z) (target_price fullScoreThreshold : Q) (row : Row) :
  fullScoreThreshold == target_price * 0.8 ->
  exists s4 n,
    calc_standard max_s4 target_price row = Done (s4, row_sum row s4) n /\
    s4 == linear_deduction_reference (float max_s4) target_price
            fullScoreThreshold (col_price row).
Proof.
  intro Hthr. unfold linear_deduction_reference.
  destruct (calc_standard_cases max_s4 target_price row)
    as [[H E]|[[H1 [H2 E]]|[H1 [H2 E]]]]; unfold full_score_price in *;
    rewrite E; eexists; eexists; (split; [reflexivity|]);
    destruct (Qlt_le_dec fullScoreThreshold (col_price row)) as [L1|L1];
    try destruct (Qlt_le_dec (col_price row) target_price) as [L2|L2];
    try lra.
  rewrite Hthr. reflexivity.
Qed.

Lemma calc_standard_refines_reference_witness :
  exists s4 n,
    calc_standard 90 420 (mkRow "B" 8 69.3 8 380 0 25 0)
    = Done (s4, row_sum (mkRow "B" 8 69.3 8 380 0 25 0) s4) n /\
    s4 == linear_deduction_reference (float 90) 420 336 380.
Proof.
  apply (calc_standard_refines_reference
           90 420 336 (mkRow "B" 8 69.3 8 380 0 25 0)).
  reflexivity.
Defined.

(** Scenario 1 of the specification, evaluated on the code. *)
Example calc_standard_scenario :
  calc_standard 90 420 (mkRow "A" 0 0 0 420 0 0 0) = Done (0, 0) 0 /\
  calc_standard 90 420 (mkRow "A" 0 0 0 300 0 0 0) = Done (90, 90) 0 /\
  exists s4 total,
    calc_standard 90 420 (mkRow "A" 0 0 0 380 0 0 0) = Done (s4, total) 1 /\
    s4 == (420 - 380) / (420 - 336) * 90 /\ 42.85 < s4 < 42.86.
Proof.
  split; [reflexivity|]. split; [reflexivity|].
  eexists; eexists. split; [reflexivity|].
  split; [reflexivity|]. split; vm_compute; reflexivity.
Qed.

(** ** Tab 2: the lowest valid price *)

Lemma Qmin_cases (x y : Q) : Qmin x y = x \/ Qmin x y = y.
Proof.
  unfold Qmin, GenericMinMax.gmin. destruct (x ?= y); auto.
Qed.

Lemma Qmax_cases (x y : Q) : Qmax x y = x \/ Qmax x y = y.
Proof.
  unfold Qmax, GenericMinMax.gmax. destruct (x ?= y); auto.
Qed.

Lemma fold_min_in (ps : list Q) : forall p, In (fold_left Qmin ps p) (p :: ps).
Proof.
  induction ps as [|q ps IH]; intro p; simpl.
  - now left.
  - destruct (IH (Qmin p q)) as [E|E].
    + rewrite <- E. destruct (Qmin_cases p q) as [->| ->]; auto.
    + auto.
Qed.

Lemma fold_min_le (ps : list Q) :
  forall p q, In q (p :: ps) -> fold_left Qmin ps p <= q.
Proof.
  induction ps as [|r ps IH]; intros p q Hin; simpl in *.
  - destruct Hin as [->|[]]. apply Qle_refl.
  - destruct Hin as [->|[->|Hin]].
    + apply Qle_trans with (Qmin q r).
      * apply IH. now left.
      * apply Q.le_min_l.
    + apply Qle_trans with (Qmin p q).
      * apply IH. now left.
      * apply Q.le_min_r.
    + apply IH. now right.
Qed.

Lemma valid_prices_app (a b : DataFrame) :
  valid_prices (a ++ b) = valid_prices a ++ valid_prices b.
Proof.
  unfold valid_prices. now rewrite filter_app, map_app.
Qed.

Lemma valid_prices_filter (df : DataFrame) :
  valid_prices df = filter (fun p => p >? 0) (map col_price df).
Proof.
  unfold valid_prices. induction df as [|row df IH]; simpl.
  - reflexivity.
  - destruct (col_price row >? 0); simpl; now rewrite IH.
Qed.

Lemma valid_prices_in (df : DataFrame) (p : Q) :
  In p (valid_prices df) <->
  exists row, In row df /\ col_price row = p /\ 0 < p.
Proof.
  unfold valid_prices. rewrite in_map_iff. split.
  - intros [row [E Hin]]. apply filter_In in Hin. destruct Hin as [Hin Hpos].
    apply py_gt_true in Hpos. exists row. subst p. auto.
  - intros [row [Hin [E Hpos]]]. exists row. split; [exact E|].
    apply filter_In. split; [exact Hin|]. apply py_gt_true. now rewrite E.
Qed.

(** When some price is valid, [min_price] is one of the valid prices and
    a lower bound of all of them. *)
Lemma min_price_spec (df : DataFrame) :
  valid_prices df <> [] ->
  In (min_price df) (valid_prices df) /\
  forall q, In q (valid_prices df) -> min_price df <= q.
Proof.
  unfold min_price. destruct (valid_prices df) as [|p ps]; [congruence|].
  intros _. split.
  - apply fold_min_in.
  - intros q Hq. now apply fold_min_le.
Qed.

Lemma min_price_none (df : DataFrame) : valid_prices df = [] -> min_price df = 0.
Proof. unfold min_price. now intros ->. Qed.

Lemma min_price_pos (df : DataFrame) : valid_prices df <> [] -> 0 < min_price df.
Proof.
  intro H. destruct (min_price_spec df H) as [Hin _].
  apply valid_prices_in in Hin. destruct Hin as [_ [_ [_ Hpos]]]. exact Hpos.
Qed.

Lemma min_price_le_row (df : DataFrame) (row : Row) :
  In row df -> 0 < col_price row ->
  0 < min_price df /\ min_price df <= col_price row.
Proof.
  intros Hin Hpos.
  assert (Hv : In (col_price row) (valid_prices df))
    by (apply valid_prices_in; eauto).
  assert (Hne : valid_prices df <> [])
    by (intro E; rewrite E in Hv; contradiction).
  split.
  - now apply min_price_pos.
  - now apply (proj2 (min_price_spec df Hne)).
Qed.

(** ** Tab 2: the two branches of [calc_min_ratio] *)

Lemma calc_min_ratio_ratio (max_s4 : Z) (mp : Q) (row : Row) :
  0 < col_price row -> 0 < mp ->
  calc_min_ratio max_s4 mp row
  = Done (mp / col_price row * float max_s4,
          row_sum row (mp / col_price row * float max_s4)) 1.
Proof.
  intros H1 H2.
  assert (Hnz : ~ col_price row == 0) by lra.
  apply py_gt_true in H1. apply py_gt_true in H2.
  unfold calc_min_ratio. rewrite H1, H2. simpl andb. cbv iota.
  rewrite (truediv_nonzero _ _ Hnz). reflexivity.
Qed.

Lemma calc_min_ratio_zero (max_s4 : Z) (mp : Q) (row : Row) :
  col_price row <= 0 \/ mp <= 0 ->
  calc_min_ratio max_s4 mp row = Done (0, row_sum row 0) 0.
Proof.
  intro H. unfold calc_min_ratio.
  assert (E : (col_price row >? 0) && (mp >? 0) = false).
  { apply andb_false_iff. destruct H as [H|H]; [left|right];
      now apply py_gt_false. }
  now rewrite E.
Qed.

Lemma calc_min_ratio_cases (max_s4 : Z) (mp : Q) (row : Row) :
  (0 < col_price row /\ 0 < mp /\
   calc_min_ratio max_s4 mp row
   = Done (mp / col_price row * float max_s4,
           row_sum row (mp / col_price row * float max_s4)) 1)
  \/ ((col_price row <= 0 \/ mp <= 0) /\
      calc_min_ratio max_s4 mp row = Done (0, row_sum row 0) 0).
Proof.
  destruct (Qlt_le_dec 0 (col_price row)) as [H1|H1].
  - destruct (Qlt_le_dec 0 mp) as [H2|H2].
    + left. repeat split; try assumption. now apply calc_min_ratio_ratio.
    + right. split; [now right|]. apply calc_min_ratio_zero. now right.
  - right. split; [now left|]. apply calc_min_ratio_zero. now left.
Qed.

(** ** Both scoring functions return a score and the sum built on it *)

Lemma calc_standard_scores (max_s4 : Z) (target_price : Q) :
  scores_row (calc_standard max_s4 target_price).
Proof.
  intro row.
  destruct (calc_standard_cases max_s4 target_price row)
    as [[_ E]|[[_ [_ E]]|[_ [_ E]]]]; rewrite E; eauto.
Qed.

Lemma calc_min_ratio_scores (max_s4 : Z) (mp : Q) :
  scores_row (calc_min_ratio max_s4 mp).
Proof.
  intro row.
  destruct (calc_min_ratio_cases max_s4 mp row) as [[_ [_ E]]|[_ E]];
    rewrite E; eauto.
Qed.

Lemma calc_standard_reads_inputs (max_s4 : Z) (target_price : Q) :
  reads_inputs_only (calc_standard max_s4 target_price).
Proof.
  intros a b (_ & E1 & E2 & E3 & Ep & E5). unfold calc_standard.
  now rewrite E1, E2, E3, Ep, E5.
Qed.

Lemma calc_min_ratio_reads_inputs (max_s4 : Z) (mp : Q) :
  reads_inputs_only (calc_min_ratio max_s4 mp).
Proof.
  intros a b (_ & E1 & E2 & E3 & Ep & E5). unfold calc_min_ratio.
  now rewrite E1, E2, E3, Ep, E5.
Qed.

(** ** Row-wise application and column assignment *)

Lemma apply_rows_scores (f : Row -> Run (Q * Q)) (df : DataFrame) :
  scores_row f ->
  exists res n,
    apply_rows f df = Done res n /\
    Forall2 (fun row r => exists k, f row = Done r k /\
                                    snd r = row_sum row (fst r)) df res.
Proof.
  intro Hf. induction df as [|row df IH]; simpl.
  - exists [], 0%nat. split; [reflexivity|constructor].
  - destruct (Hf row) as (s4 & k & E).
    destruct IH as (res & n & Eres & Hall).
    rewrite E. unfold bind at 1. rewrite Eres. simpl.
    eexists; eexists. split; [reflexivity|].
    constructor; [|exact Hall]. exists k. split; [exact E|reflexivity].
Qed.

Lemma apply_rows_same_inputs (f : Row -> Run (Q * Q)) (df df' : DataFrame) :
  reads_inputs_only f -> Forall2 same_inputs df df' ->
  apply_rows f df = apply_rows f df'.
Proof.
  intros Hf Hall. induction Hall as [|a b df df' Hab _ IH]; simpl.
  - reflexivity.
  - now rewrite (Hf a b Hab), IH.
Qed.

Lemma same_inputs_set_scores_row (row : Row) (r : Q * Q) :
  same_inputs row (set_scores_row row r).
Proof. unfold same_inputs. simpl. repeat split. Qed.

Lemma same_inputs_set_scores (df : DataFrame) :
  forall res, Forall2 same_inputs df (set_scores df res).
Proof.
  assert (Hrefl : forall d, Forall2 same_inputs d d).
  { induction d; constructor; [unfold same_inputs; repeat split | assumption]. }
  induction df as [|row df IH]; intros [|r res]; simpl.
  - constructor.
  - constructor.
  - apply Hrefl.
  - constructor; [apply same_inputs_set_scores_row | apply IH].
Qed.

Lemma set_scores_twice (df : DataFrame) :
  forall res, set_scores (set_scores df res) res = set_scores df res.
Proof.
  induction df as [|row df IH]; intros [|r res]; simpl; try reflexivity.
  now rewrite IH.
Qed.

Lemma set_scores_rows (f : Row -> Run (Q * Q)) (df : DataFrame) :
  forall res,
    Forall2 (fun row r => exists k, f row = Done r k /\
                                    snd r = row_sum row (fst r)) df res ->
    Forall2 (fun row row' => (exists k, f row = Done (col_s4 row', col_total row') k)
                             /\ same_inputs row row' /\ total_is_sum row')
            df (set_scores df res).
Proof.
  induction df as [|row df IH]; intros res Hall; inversion Hall; subst; simpl.
  - constructor.
  - constructor; [|now apply IH].
    match goal with H : exists _, _ |- _ => destruct H as (k & E & Hsum) end.
    split; [|split].
    + exists k. simpl. now rewrite <- surjective_pairing.
    + apply same_inputs_set_scores_row.
    + unfold total_is_sum. simpl. exact Hsum.
Qed.

Lemma same_inputs_prices (df df' : DataFrame) :
  Forall2 same_inputs df df' -> map col_price df = map col_price df'.
Proof.
  induction 1 as [|a b df df' Hab _ IH]; simpl; [reflexivity|].
  destruct Hab as (_ & _ & _ & _ & Ep & _). now rewrite Ep, IH.
Qed.

Lemma same_inputs_min_price (df df' : DataFrame) :
  Forall2 same_inputs df df' -> min_price df = min_price df'.
Proof.
  intro H. unfold min_price.
  now rewrite !valid_prices_filter, (same_inputs_prices df df' H).
Qed.

(** One recomputation pass with a row function [f], as both tabs do it. *)
Lemma recompute_with (f : Row -> Run (Q * Q)) (df : DataFrame) :
  scores_row f -> reads_inputs_only f ->
  exists df' n,
    (if negb (empty df) then
       res <- apply_rows f df ;; ret (set_scores df res)
     else ret df) = Done df' n /\
    Forall2 (fun row row' => (exists k, f row = Done (col_s4 row', col_total row') k)
                             /\ same_inputs row row' /\ total_is_sum row')
            df df' /\
    (if negb (empty df') then
       res <- apply_rows f df' ;; ret (set_scores df' res)
     else ret df') = Done df' n.
Proof.
  intros Hs Hr. destruct df as [|row df].
  - exists [], 0%nat. simpl. repeat split. constructor.
  - destruct (apply_rows_scores f (row :: df) Hs) as (res & n & E & Hall).
    exists (set_scores (row :: df) res), (n + 0)%nat.
    assert (Hne : empty (set_scores (row :: df) res) = false)
      by (destruct res; reflexivity).
    rewrite Hne. simpl negb. cbv iota.
    rewrite <- (apply_rows_same_inputs f (row :: df) _ Hr
                  (same_inputs_set_scores (row :: df) res)).
    rewrite E. unfold bind, ret. rewrite set_scores_twice.
    split; [reflexivity|]. split; [|reflexivity].
    now apply set_scores_rows.
Qed.

(** ** Claims about recomputation *)

Lemma price_score_of_calc (max_s4 : Z) (target_price : Q) (m : Model)
    (df : DataFrame) (row : Row) (s4 total : Q) (k : nat) :
  match m with
  | Standard => calc_standard max_s4 target_price row
  | MinRatio => calc_min_ratio max_s4 (min_price df) row
  end = Done (s4, total) k ->
  price_score max_s4 target_price m df row = Done s4 (k + 0).
Proof.
  intro E. unfold price_score. destruct m; now rewrite E.
Qed.

(** What one pass of [recompute] does, for either model: it returns a
    table whose rows keep the editable columns, carry the price score
    and the sum that the model's row function computes, and a second
    pass over the result returns exactly the same. *)
Lemma recompute_pass (max_s4 : Z) (target_price : Q) (m : Model) (df : DataFrame) :
  exists df' n,
    recompute max_s4 target_price m df = Done df' n /\
    Forall2 (fun row row' =>
               (exists k, price_score max_s4 target_price m df row
                          = Done (col_s4 row') k)
               /\ same_inputs row row' /\ total_is_sum row') df df' /\
    recompute max_s4 target_price m df' = Done df' n.
Proof.
  destruct m.
  - destruct (recompute_with (calc_standard max_s4 target_price) df
                (calc_standard_scores _ _) (calc_standard_reads_inputs _ _))
      as (df' & n & E & Hall & E').
    exists df', n. split; [exact E|]. split; [|exact E'].
    eapply Forall2_impl; [|exact Hall].
    intros row row' ((k & Ek) & Hin & Hsum). split; [|now split].
    exists (k + 0)%nat. now apply (price_score_of_calc _ _ Standard df _ _ (col_total row')).
  - destruct (recompute_with (calc_min_ratio max_s4 (min_price df)) df
                (calc_min_ratio_scores _ _) (calc_min_ratio_reads_inputs _ _))
      as (df' & n & E & Hall & E').
    exists df', n. split; [exact E|].
    assert (Hmin : min_price df = min_price df').
    { apply same_inputs_min_price. eapply Forall2_impl; [|exact Hall].
      intros ? ? (_ & H & _). exact H. }
    split.
    + eapply Forall2_impl; [|exact Hall].
      intros row row' ((k & Ek) & Hin & Hsum). split; [|now split].
      exists (k + 0)%nat.
      now apply (price_score_of_calc _ _ MinRatio df _ _ (col_total row')).
    + unfold recompute, recompute_tab2. cbv zeta. rewrite <- Hmin. exact E'.
Qed.

(** C3.  Under either model [recompute] returns a table in which every
    row has 合計点 = ①実績 + ②技術提案 + ③地域貢献 + ④工事費評価 + ⑤削減提案
    (the same expression, not only the same number), where ④工事費評価 of
    each row is the price score the selected model computes for the
    corresponding input row. *)
Theorem recompute_total_is_sum
    (max_s4 : Z) (target_price : Q) (m : Model) (df : DataFrame) :
  exists df' n,
    recompute max_s4 target_price m df = Done df' n /\
    Forall (fun row' =>
              col_total row'
              = col_s1 row' + col_s2 row' + col_s3 row' + col_s4 row'
                + col_s5 row') df' /\
    Forall2 (fun row row' =>
               exists k, price_score max_s4 target_price m df row
                         = Done (col_s4 row') k) df df'.
Proof.
  destruct (recompute_pass max_s4 target_price m df) as (df' & n & E & Hall & _).
  exists df', n. split; [exact E|]. split.
  - clear E. induction Hall as [|row row' rest rest' (_ & _ & Hsum) _ IH];
      constructor; [exact Hsum | exact IH].
  - eapply Forall2_impl; [|exact Hall]. intros row row' (H & _). exact H.
Qed.

Lemma recompute_total_is_sum_witness :
  exists df' n,
    recompute 90 420 Standard (get_initial_data 10 90 10 25) = Done df' n /\
    Forall (fun row' =>
              col_total row'
              = col_s1 row' + col_s2 row' + col_s3 row' + col_s4 row'
                + col_s5 row') df' /\
    Forall2 (fun row row' =>
               exists k, price_score 90 420 Standard
                           (get_initial_data 10 90 10 25) row
                         = Done (col_s4 row') k)
            (get_initial_data 10 90 10 25) df'.
Proof.
  exact (recompute_total_is_sum 90 420 Standard (get_initial_data 10 90 10 25)).
Defined.

(** C7.  [recompute] is idempotent under either model: a pass over the
    table returned by a pass returns that same table again (and
    executes the same number of divisions). *)
Theorem recompute_idempotent
    (max_s4 : Z) (target_price : Q) (m : Model) (df : DataFrame) :
  exists df' n,
    recompute max_s4 target_price m df = Done df' n /\
    recompute max_s4 target_price m df' = Done df' n.
Proof.
  destruct (recompute_pass max_s4 target_price m df) as (df' & n & E & _ & E').
  exists df', n. split; assumption.
Qed.

Lemma recompute_idempotent_witness :
  exists df' n,
    recompute 90 420 MinRatio (get_initial_data 10 90 10 25) = Done df' n /\
    recompute 90 420 MinRatio df' = Done df' n.
Proof.
  exact (recompute_idempotent 90 420 MinRatio (get_initial_data 10 90 10 25)).
Defined.

(** ** Claims about the size of the price score *)

Lemma float_nonneg (n : Z) : (0 <= n)%Z -> 0 <= float n.
Proof. intro H. unfold float, Qle. simpl. lia. Qed.

Lemma ratio_bounds (a d : Q) : 0 <= a -> a <= d -> 0 < d -> 0 <= a / d /\ a / d <= 1.
Proof.
  intros Ha Had Hd. split.
  - apply Qle_shift_div_l; [exact Hd|]. lra.
  - apply Qle_shift_div_r; [exact Hd|]. lra.
Qed.

Lemma scaled_bounds (r M : Q) :
  0 <= r -> r <= 1 -> 0 <= M -> 0 <= r * M /\ r * M <= M.
Proof. intros H0 H1 HM. split; nra. Qed.

(** C4.  With a non-negative maximum, every row of the table with a
    non-negative bid price gets, under either model, a price score
    between 0 and the maximum; with a maximum of 0 the price score is
    0. *)
Theorem price_score_bounds
    (max_s4 : Z) (target_price : Q) (m : Model) (df : DataFrame) (row : Row) :
  (0 <= max_s4)%Z -> In row df -> 0 <= col_price row ->
  exists s4 n,
    price_score max_s4 target_price m df row = Done s4 n /\
    0 <= s4 /\ s4 <= float max_s4 /\
    (max_s4 = 0%Z -> s4 == 0).
Proof.
  intros Hmax Hin Hprice.
  pose proof (float_nonneg max_s4 Hmax) as HM.
  assert (Hzero : forall s, 0 <= s -> s <= float max_s4 -> max_s4 = 0%Z -> s == 0).
  { intros s Hs0 Hs1 ->. change (float 0) with 0 in Hs1.
    now apply Qle_antisym. }
  assert (Hclose : forall s, 0 <= s -> s <= float max_s4 ->
            0 <= s /\ s <= float max_s4 /\ (max_s4 = 0%Z -> s == 0)).
  { intros s Hs0 Hs1. repeat split; try assumption. now apply Hzero. }
  destruct m.
  - destruct (calc_standard_cases max_s4 target_price row)
      as [[H E]|[[H1 [H2 E]]|[H1 [H2 E]]]];
      rewrite (price_score_of_calc _ _ Standard df _ _ _ _ E);
      eexists; eexists; (split; [reflexivity|]); apply Hclose.
    + exact HM.
    + apply Qle_refl.
    + apply Qle_refl.
    + exact HM.
    + destruct (ratio_bounds (target_price - col_price row)
                  (target_price - full_score_price target_price))
        as [R0 R1]; try lra.
      exact (proj1 (scaled_bounds _ _ R0 R1 HM)).
    + destruct (ratio_bounds (target_price - col_price row)
                  (target_price - full_score_price target_price))
        as [R0 R1]; try lra.
      exact (proj2 (scaled_bounds _ _ R0 R1 HM)).
  - destruct (calc_min_ratio_cases max_s4 (min_price df) row)
      as [(H1 & H2 & E)|[_ E]];
      rewrite (price_score_of_calc _ _ MinRatio df _ _ _ _ E);
      eexists; eexists; (split; [reflexivity|]); apply Hclose.
    + destruct (min_price_le_row df row Hin H1) as [_ Hle].
      destruct (ratio_bounds (min_price df) (col_price row)) as [R0 R1];
        try lra.
      exact (proj1 (scaled_bounds _ _ R0 R1 HM)).
    + destruct (min_price_le_row df row Hin H1) as [_ Hle].
      destruct (ratio_bounds (min_price df) (col_price row)) as [R0 R1];
        try lra.
      exact (proj2 (scaled_bounds _ _ R0 R1 HM)).
    + apply Qle_refl.
    + exact HM.
Qed.

Lemma price_score_bounds_witness :
  exists s4 n,
    price_score 90 420 MinRatio (get_initial_data 10 90 10 25)
      (mkRow "B社" (float 10 * 0.8) (float 90 * 0.77) (float 10 * 0.8)
             380.0 0 (float 25) 0) = Done s4 n /\
    0 <= s4 /\ s4 <= float 90 /\ (90%Z = 0%Z -> s4 == 0).
Proof.
  apply (price_score_bounds 90 420 MinRatio (get_initial_data 10 90 10 25)).
  - lia.
  - simpl. right. left. reflexivity.
  - vm_compute. discriminate.
Defined.

(** ** Claims about Tab 2 *)

Lemma Forall2_right {A B : Type} (R : A -> B -> Prop) (P : B -> Prop)
    (l : list A) (l' : list B) :
  Forall2 R l l' -> (forall a b, R a b -> P b) -> Forall P l'.
Proof.
  intros H HP. induction H as [|a b l l' Hab _ IH]; constructor; eauto.
Qed.




(** *** The price score against the row's own bid price *)

Lemma valid_prices_edit (pre post : DataFrame) (row : Row) (p q : Q) :
  0 < p ->
  (In q (valid_prices (pre ++ with_price row p :: post)) <->
   q = p \/ In q (valid_prices (pre ++ post))).
Proof.
  intro Hp.
  assert (Hone : valid_prices [with_price row p] = [p]).
  { unfold valid_prices. simpl. apply py_gt_true in Hp. now rewrite Hp. }
  change (pre ++ with_price row p :: post)
    with (pre ++ [with_price row p] ++ post).
  rewrite !valid_prices_app, Hone, !in_app_iff. simpl. intuition congruence.
Qed.

Lemma ratio_monotone (m m' p p' M : Q) :
  0 < p -> 0 < p' -> m' * p <= m * p' -> 0 <= M ->
  m' / p' * M <= m / p * M.
Proof.
  intros Hp Hp' Hcross HM.
  apply Qmult_le_compat_r; [|exact HM].
  apply Qle_shift_div_r; [exact Hp'|].
  assert (E : m / p * p' == m * p' / p) by (field; lra).
  rewrite E. apply Qle_shift_div_l; assumption.
Qed.

(** C8, as the code has it.  With a non-negative maximum, and all
    other rows fixed, the Tab 2 price score of a row does not increase
    when the row's own bid price is raised from one positive value to a
    larger one.  (A bid price of 0 scores 0, so the step from 0 to a
    positive price is excluded.) *)
Theorem min_ratio_monotone_in_own_price
    (max_s4 : Z) (target_price : Q) (pre post : DataFrame) (row : Row)
    (p p' : Q) :
  (0 <= max_s4)%Z -> 0 < p -> p <= p' ->
  exists s4 s4' n n',
    price_score max_s4 target_price MinRatio
      (pre ++ with_price row p :: post) (with_price row p) = Done s4 n /\
    price_score max_s4 target_price MinRatio
      (pre ++ with_price row p' :: post) (with_price row p') = Done s4' n' /\
    s4' <= s4.
Proof.
  intros Hmax Hp Hpp'.
  assert (Hp' : 0 < p') by lra.
  pose proof (float_nonneg max_s4 Hmax) as HM.
  set (T := pre ++ with_price row p :: post).
  set (T' := pre ++ with_price row p' :: post).
  assert (HinT : In p (valid_prices T))
    by (apply valid_prices_edit; [exact Hp | now left]).
  assert (HinT' : In p' (valid_prices T'))
    by (apply valid_prices_edit; [exact Hp' | now left]).
  assert (HneT : valid_prices T <> [])
    by (intro E; rewrite E in HinT; contradiction).
  assert (HneT' : valid_prices T' <> [])
    by (intro E; rewrite E in HinT'; contradiction).
  destruct (min_price_spec T HneT) as [Hm Hlow].
  destruct (min_price_spec T' HneT') as [_ Hlow'].
  pose proof (min_price_pos T HneT) as Hmpos.
  pose proof (min_price_pos T' HneT') as Hmpos'.
  pose proof (Hlow' p' HinT') as Hm'p'.
  pose proof (calc_min_ratio_ratio max_s4 (min_price T) (with_price row p)
                Hp Hmpos) as E.
  pose proof (calc_min_ratio_ratio max_s4 (min_price T') (with_price row p')
                Hp' Hmpos') as E'.
  rewrite (price_score_of_calc _ target_price MinRatio T _ _ _ _ E).
  rewrite (price_score_of_calc _ target_price MinRatio T' _ _ _ _ E').
  do 4 eexists. split; [reflexivity|]. split; [reflexivity|].
  simpl col_price.
  apply ratio_monotone; try assumption.
  apply (valid_prices_edit pre post row p (min_price T) Hp) in Hm.
  destruct Hm as [Hown|Hother].
  - rewrite Hown. nra.
  - assert (Hle : min_price T' <= min_price T).
    { apply Hlow'. apply valid_prices_edit; [exact Hp' | now right]. }
    nra.
Qed.

Lemma min_ratio_monotone_in_own_price_witness :
  exists s4 s4' n n',
    price_score 90 420 MinRatio
      ([] ++ with_price (mkRow "A" 10 84.6 10 0 0 25 0) 400
          :: [mkRow "B" 8 69.3 8 380 0 25 0])
      (with_price (mkRow "A" 10 84.6 10 0 0 25 0) 400) = Done s4 n /\
    price_score 90 420 MinRatio
      ([] ++ with_price (mkRow "A" 10 84.6 10 0 0 25 0) 420
          :: [mkRow "B" 8 69.3 8 380 0 25 0])
      (with_price (mkRow "A" 10 84.6 10 0 0 25 0) 420) = Done s4' n' /\
    s4' <= s4.
Proof.
  apply (min_ratio_monotone_in_own_price 90 420 []
           [mkRow "B" 8 69.3 8 380 0 25 0]
           (mkRow "A" 10 84.6 10 0 0 25 0) 400 420).
  - lia.
  - reflexivity.
  - vm_compute. discriminate.
Defined.

(** C8 as stated fails: in the table A, B with B bidding 380, raising
    A's bid price from 0 to 420 raises A's price score from 0 to
    380/420*90, about 81.4. *)
Lemma min_ratio_score_rises_from_zero_bid :
  let a := mkRow "A" 10 84.6 10 0 0 25 0 in
  let b := mkRow "B" 8 69.3 8 380 0 25 0 in
  let p := 0 in
  let p' := 420 in
  p <= p' /\
  price_score 90 420 MinRatio ([] ++ with_price a p :: [b]) (with_price a p)
  = Done 0 0 /\
  price_score 90 420 MinRatio ([] ++ with_price a p' :: [b]) (with_price a p')
  = Done (380 / 420 * 90) 1 /\
  ~ 380 / 420 * 90 <= 0.
Proof.
  cbv zeta. split; [vm_compute; discriminate|].
  split; [reflexivity|]. split; [reflexivity|].
  vm_compute. intro H. apply H. reflexivity.
Qed.

(** Scenario 2 of the specification, evaluated on the code. *)
Example calc_min_ratio_scenario :
  min_price (get_initial_data 10 90 10 25) == 340 /\
  exists a b c n,
    recompute 90 420 MinRatio (get_initial_data 10 90 10 25) = Done [a; b; c] n /\
    col_s4 c == 90 /\ col_s4 b == 340 / 380 * 90 /\ col_s4 a == 340 / 420 * 90.
Proof.
  split; [reflexivity|].
  do 4 eexists. split; [reflexivity|]. repeat split.
Qed.

(** ** Claims about the winner *)

(** [argmax_from] either keeps the incumbent, which then bounds the
    whole list, or moves to the first position that holds the largest
    value of the list, which is strictly above the incumbent. *)
Lemma argmax_from_spec (xs : list Q) :
  forall best best_i i,
    (argmax_from best best_i i xs = best_i /\
     forall y, In y xs -> y <= best)
    \/ exists j x,
         argmax_from best best_i i xs = (i + j)%nat /\
         nth_error xs j = Some x /\ best < x /\
         (forall y, In y xs -> y <= x) /\
         (forall j' y, (j' < j)%nat -> nth_error xs j' = Some y -> y < x).
Proof.
  induction xs as [|x xs IH]; intros best best_i i; simpl.
  - left. split; [reflexivity|]. intros y [].
  - destruct (x >? best) eqn:Hcmp.
    + apply py_gt_true in Hcmp.
      destruct (IH x i (S i)) as [[E Hall]|(j & z & E & Hnth & Hlt & Hall & Hfirst)].
      * right. exists 0%nat, x. rewrite E, Nat.add_0_r.
        split; [reflexivity|]. split; [reflexivity|]. split; [exact Hcmp|].
        split.
        -- intros y [->|Hy]; [apply Qle_refl | now apply Hall].
        -- intros j' y Hj'. lia.
      * right. exists (S j), z. rewrite E.
        split; [lia|]. split; [exact Hnth|]. split; [lra|]. split.
        -- intros y [->|Hy]; [lra | now apply Hall].
        -- intros [|j'] y Hj' Hy; simpl in Hy.
           ++ injection Hy as <-. exact Hlt.
           ++ apply (Hfirst j'); [lia | exact Hy].
    + apply py_gt_false in Hcmp.
      destruct (IH best best_i (S i))
        as [[E Hall]|(j & z & E & Hnth & Hlt & Hall & Hfirst)].
      * left. split; [exact E|].
        intros y [->|Hy]; [exact Hcmp | now apply Hall].
      * right. exists (S j), z. rewrite E.
        split; [lia|]. split; [exact Hnth|]. split; [exact Hlt|]. split.
        -- intros y [->|Hy]; [lra | now apply Hall].
        -- intros [|j'] y Hj' Hy; simpl in Hy.
           ++ injection Hy as <-. lra.
           ++ apply (Hfirst j'); [lia | exact Hy].
Qed.

(** [idxmax] of a non-empty series: the first position of a largest
    value. *)
Lemma idxmax_spec (x : Q) (xs : list Q) :
  exists i t,
    idxmax (x :: xs) = Some i /\ nth_error (x :: xs) i = Some t /\
    (forall y, In y (x :: xs) -> y <= t) /\
    (forall j y, (j < i)%nat -> nth_error (x :: xs) j = Some y -> y < t).
Proof.
  unfold idxmax.
  destruct (argmax_from_spec xs x 0%nat 1%nat)
    as [[E Hall]|(j & z & E & Hnth & Hlt & Hall & Hfirst)]; rewrite E.
  - exists 0%nat, x. split; [reflexivity|]. split; [reflexivity|]. split.
    + intros y [->|Hy]; [apply Qle_refl | now apply Hall].
    + intros j y Hj. lia.
  - exists (S j), z. split; [reflexivity|]. split; [exact Hnth|]. split.
    + intros y [->|Hy]; [lra | now apply Hall].
    + intros [|j'] y Hj' Hy; simpl in Hy.
      * injection Hy as <-. exact Hlt.
      * apply (Hfirst j'); [lia | exact Hy].
Qed.

Lemma fold_max_in (xs : list Q) : forall x, In (fold_left Qmax xs x) (x :: xs).
Proof.
  induction xs as [|y xs IH]; intro x; simpl.
  - now left.
  - destruct (IH (Qmax x y)) as [E|E].
    + rewrite <- E. destruct (Qmax_cases x y) as [->| ->]; auto.
    + auto.
Qed.

Lemma fold_max_ge (xs : list Q) :
  forall x y, In y (x :: xs) -> y <= fold_left Qmax xs x.
Proof.
  induction xs as [|z xs IH]; intros x y Hin; simpl in *.
  - destruct Hin as [->|[]]. apply Qle_refl.
  - destruct Hin as [->|[->|Hin]].
    + apply Qle_trans with (Qmax y z).
      * apply Q.le_max_l.
      * apply IH. now left.
    + apply Qle_trans with (Qmax x y).
      * apply Q.le_max_r.
      * apply IH. now left.
    + apply IH. now right.
Qed.

Lemma nth_error_map_total (df : DataFrame) (i : nat) (t : Q) :
  nth_error (map col_total df) i = Some t ->
  exists row, nth_error df i = Some row /\ col_total row = t.
Proof.
  rewrite nth_error_map. destruct (nth_error df i) as [row|]; simpl.
  - intro E. injection E as <-. eauto.
  - discriminate.
Qed.

(** C6.  On an empty table [rank] returns no winner.  On any other
    table -- in particular on a recomputed one -- it returns the name of
    a row whose 合計点 is at least that of every row and strictly above
    that of every earlier row (so among tied maxima the earliest wins),
    together with that 合計点. *)
Theorem rank_selects_first_maximum (df : DataFrame) :
  rank [] = None /\
  match rank df with
  | None => df = []
  | Some (name, score) =>
      exists i row,
        nth_error df i = Some row /\
        name = col_name row /\ score == col_total row /\
        (forall r, In r df -> col_total r <= col_total row) /\
        (forall j r, (j < i)%nat -> nth_error df j = Some r ->
                     col_total r < col_total row)
  end.
Proof.
  split; [reflexivity|].
  destruct df as [|r0 df]; [reflexivity|].
  unfold rank. simpl empty. cbv iota.
  change (map col_total (r0 :: df)) with (col_total r0 :: map col_total df).
  destruct (idxmax_spec (col_total r0) (map col_total df))
    as (i & t & Ei & Hnth & Hall & Hfirst).
  rewrite Ei. unfold series_max.
  change (col_total r0 :: map col_total df)
    with (map col_total (r0 :: df)) in Hnth, Hall, Hfirst.
  destruct (nth_error_map_total _ _ _ Hnth) as (row & Hrow & Et).
  rewrite Hrow. exists i, row. subst t.
  split; [exact Hrow|]. split; [reflexivity|].
  assert (Hup : forall r, In r (r0 :: df) -> col_total r <= col_total row).
  { intros r Hr. apply Hall. now apply in_map. }
  split; [|split].
  - apply Qle_antisym.
    + apply Hall. apply (fold_max_in (map col_total df) (col_total r0)).
    + apply (fold_max_ge (map col_total df) (col_total r0)).
      change (In (col_total row) (map col_total (r0 :: df))).
      apply in_map. eapply nth_error_In. exact Hrow.
  - exact Hup.
  - intros j r Hj Hr. apply (Hfirst j); [exact Hj|].
    rewrite nth_error_map, Hr. reflexivity.
Qed.

Lemma rank_selects_first_maximum_witness :
  rank [] = None /\
  match rank [mkRow "A" 0 0 0 0 0 0 78.4; mkRow "B" 0 0 0 0 0 0 78.4;
              mkRow "C" 0 0 0 0 0 0 75.0] with
  | None =>
      [mkRow "A" 0 0 0 0 0 0 78.4; mkRow "B" 0 0 0 0 0 0 78.4;
       mkRow "C" 0 0 0 0 0 0 75.0] = []
  | Some (name, score) =>
      exists i row,
        nth_error [mkRow "A" 0 0 0 0 0 0 78.4; mkRow "B" 0 0 0 0 0 0 78.4;
                   mkRow "C" 0 0 0 0 0 0 75.0] i = Some row /\
        name = col_name row /\ score == col_total row /\
        (forall r, In r [mkRow "A" 0 0 0 0 0 0 78.4; mkRow "B" 0 0 0 0 0 0 78.4;
                         mkRow "C" 0 0 0 0 0 0 75.0] ->
                   col_total r <= col_total row) /\
        (forall j r, (j < i)%nat ->
                     nth_error [mkRow "A" 0 0 0 0 0 0 78.4;
                                mkRow "B" 0 0 0 0 0 0 78.4;
                                mkRow "C" 0 0 0 0 0 0 75.0] j = Some r ->
                     col_total r < col_total row)
  end.
Proof.
  exact (rank_selects_first_maximum
           [mkRow "A" 0 0 0 0 0 0 78.4; mkRow "B" 0 0 0 0 0 0 78.4;
            mkRow "C" 0 0 0 0 0 0 75.0]).
Defined.

(** Scenario 3 of the specification: A and B tie at 78.4, C has 75.0. *)
Example rank_scenario :
  rank [mkRow "A" 0 0 0 0 0 0 78.4; mkRow "B" 0 0 0 0 0 0 78.4;
        mkRow "C" 0 0 0 0 0 0 75.0] = Some ("A"%string, 78.4).
Proof. reflexivity. Qed.

(** The winner of the recomputed initial table, under both models. *)
Example rank_initial_data :
  (exists df' n score,
     recompute 90 420 Standard (get_initial_data 10 90 10 25) = Done df' n /\
     rank df' = Some ("C社"%string, score)) /\
  (exists df' n score,
     recompute 90 420 MinRatio (get_initial_data 10 90 10 25) = Done df' n /\
     rank df' = Some ("A社"%string, score)).
Proof.
  split; do 3 eexists; (split; [reflexivity|]); vm_compute; reflexivity.
Qed.

(** * Further properties of the two models *)

(** ** Bounds on the price score, per row function *)

Lemma calc_standard_bounds (max_s4 : Z) (target_price : Q) (row : Row) :
  (0 <= max_s4)%Z ->
  exists s4 n,
    calc_standard max_s4 target_price row = Done (s4, row_sum row s4) n /\
    0 <= s4 /\ s4 <= float max_s4.
Proof.
  intro Hmax. pose proof (float_nonneg max_s4 Hmax) as HM.
  destruct (calc_standard_cases max_s4 target_price row)
    as [[H E]|[[H1 [H2 E]]|[H1 [H2 E]]]]; rewrite E;
    eexists; eexists; (split; [reflexivity|]).
  - split; [exact HM | apply Qle_refl].
  - split; [apply Qle_refl | exact HM].
  - destruct (ratio_bounds (target_price - col_price row)
                (target_price - full_score_price target_price))
      as [R0 R1]; try lra.
    exact (scaled_bounds _ _ R0 R1 HM).
Qed.

Lemma calc_min_ratio_bounds (max_s4 : Z) (df : DataFrame) (row : Row) :
  (0 <= max_s4)%Z -> In row df ->
  exists s4 n,
    calc_min_ratio max_s4 (min_price df) row = Done (s4, row_sum row s4) n /\
    0 <= s4 /\ s4 <= float max_s4.
Proof.
  intros Hmax Hin. pose proof (float_nonneg max_s4 Hmax) as HM.
  destruct (calc_min_ratio_cases max_s4 (min_price df) row)
    as [(H1 & H2 & E)|[_ E]]; rewrite E;
    eexists; eexists; (split; [reflexivity|]).
  - destruct (min_price_le_row df row Hin H1) as [_ Hle].
    destruct (ratio_bounds (min_price df) (col_price row)) as [R0 R1];
      try lra.
    exact (scaled_bounds _ _ R0 R1 HM).
  - split; [apply Qle_refl | exact HM].
Qed.

(** ** Tab 1 *)

(** X1.  Under the standard rule a higher bid never earns a higher price
    score: for any target price and a non-negative maximum, the price
    score of [calc_standard] is non-increasing in the bid price, over
    all three branches. *)
Theorem calc_standard_monotone
    (max_s4 : Z) (target_price : Q) (a b : Row) :
  (0 <= max_s4)%Z -> col_price a <= col_price b ->
  exists sa sb na nb,
    calc_standard max_s4 target_price a = Done (sa, row_sum a sa) na /\
    calc_standard max_s4 target_price b = Done (sb, row_sum b sb) nb /\
    sb <= sa.
Proof.
  intros Hmax Hab. pose proof (float_nonneg max_s4 Hmax) as HM.
  destruct (calc_standard_bounds max_s4 target_price b Hmax)
    as (sb0 & nb0 & Eb0 & Hb0 & Hb1).
  destruct (calc_standard_bounds max_s4 target_price a Hmax)
    as (sa0 & na0 & Ea0 & Ha0 & Ha1).
  destruct (calc_standard_cases max_s4 target_price a)
    as [[HA EA]|[[HA1 [HA2 EA]]|[HA1 [HA2 EA]]]].
  - (* a has full marks *)
    rewrite EA, Eb0. do 4 eexists. split; [reflexivity|].
    split; [reflexivity|]. exact Hb1.
  - (* a has nothing: b is at or above the target as well *)
    rewrite EA, (calc_standard_zero max_s4 target_price b); try lra.
    do 4 eexists. split; [reflexivity|]. split; [reflexivity|].
    apply Qle_refl.
  - destruct (calc_standard_cases max_s4 target_price b)
      as [[HB EB]|[[HB1 [HB2 EB]]|[HB1 [HB2 EB]]]].
    + lra.
    + rewrite EA, EB. do 4 eexists. split; [reflexivity|].
      split; [reflexivity|].
      rewrite EA in Ea0. injection Ea0 as Es _ _. rewrite Es. exact Ha0.
    + rewrite EA, EB. do 4 eexists. split; [reflexivity|].
      split; [reflexivity|].
      apply Qmult_le_compat_r; [|exact HM].
      unfold Qdiv. apply Qmult_le_compat_r; [lra|].
      apply Qlt_le_weak, Qinv_lt_0_compat. lra.
Qed.

Lemma calc_standard_monotone_witness :
  exists sa sb na nb,
    calc_standard 90 420 (mkRow "C" 6 54.9 6 340 0 25 0)
    = Done (sa, row_sum (mkRow "C" 6 54.9 6 340 0 25 0) sa) na /\
    calc_standard 90 420 (mkRow "B" 8 69.3 8 380 0 25 0)
    = Done (sb, row_sum (mkRow "B" 8 69.3 8 380 0 25 0) sb) nb /\
    sb <= sa.
Proof.
  apply (calc_standard_monotone 90 420 (mkRow "C" 6 54.9 6 340 0 25 0)
           (mkRow "B" 8 69.3 8 380 0 25 0)).
  - lia.
  - vm_compute. discriminate.
Defined.

(** ** Tab 2 *)

Lemma valid_prices_none_iff (df : DataFrame) :
  valid_prices df = [] <-> Forall (fun row => col_price row <= 0) df.
Proof.
  split.
  - intro Hnone. apply Forall_forall. intros row Hin.
    destruct (Qlt_le_dec 0 (col_price row)) as [Hpos|Hle]; [|exact Hle].
    assert (Hv : In (col_price row) (valid_prices df))
      by (apply valid_prices_in; eauto).
    rewrite Hnone in Hv. contradiction.
  - intro Hall. destruct (valid_prices df) as [|p ps] eqn:E; [reflexivity|].
    assert (Hv : In p (valid_prices df)) by (rewrite E; now left).
    apply valid_prices_in in Hv. destruct Hv as (row & Hin & Ep & Hpos).
    rewrite Forall_forall in Hall. specialize (Hall row Hin).
    rewrite Ep in Hall. lra.
Qed.

(** X3.  [min_price] is the lowest positive bid of the table: either no
    row has a positive bid and [min_price] is 0, or [min_price] is the
    positive bid of some row and no positive bid of the table is
    lower. *)
Theorem min_price_is_lowest_positive_bid (df : DataFrame) :
  (Forall (fun row => col_price row <= 0) df /\ min_price df = 0)
  \/ ((exists row, In row df /\ col_price row = min_price df) /\
      0 < min_price df /\
      forall row, In row df -> 0 < col_price row ->
                  min_price df <= col_price row).
Proof.
  destruct (valid_prices df) as [|p ps] eqn:E.
  - left. split; [now apply valid_prices_none_iff | now apply min_price_none].
  - right.
    assert (Hne : valid_prices df <> []) by (rewrite E; discriminate).
    destruct (min_price_spec df Hne) as [Hin _].
    apply valid_prices_in in Hin. destruct Hin as (row & Hin & Ep & Hpos).
    split; [eauto|]. split; [exact Hpos|].
    intros r Hr Hrpos. now apply (min_price_le_row df r).
Qed.

Lemma min_price_is_lowest_positive_bid_witness :
  (Forall (fun row => col_price row <= 0) (get_initial_data 10 90 10 25) /\
   min_price (get_initial_data 10 90 10 25) = 0)
  \/ ((exists row, In row (get_initial_data 10 90 10 25) /\
                   col_price row = min_price (get_initial_data 10 90 10 25)) /\
      0 < min_price (get_initial_data 10 90 10 25) /\
      forall row, In row (get_initial_data 10 90 10 25) -> 0 < col_price row ->
                  min_price (get_initial_data 10 90 10 25) <= col_price row).
Proof.
  exact (min_price_is_lowest_positive_bid (get_initial_data 10 90 10 25)).
Defined.

Lemma apply_rows_no_division (f : Row -> Run (Q * Q)) (df : DataFrame) :
  Forall (fun row => exists v, f row = Done v 0) df ->
  exists res, apply_rows f df = Done res 0.
Proof.
  induction 1 as [|row df (v & E) _ (res & IH)]; simpl.
  - now exists [].
  - rewrite E. unfold bind at 1. rewrite IH. simpl. eauto.
Qed.

Lemma Forall2_right_with {A B : Type} (R : A -> B -> Prop)
    (P : A -> Prop) (P' : B -> Prop) (l : list A) (l' : list B) :
  Forall2 R l l' -> Forall P l ->
  (forall a b, P a -> R a b -> P' b) -> Forall P' l'.
Proof.
  intros H HP Himp. induction H as [|a b l l' Hab _ IH]; constructor.
  - inversion HP; subst. eauto.
  - apply IH. now inversion HP.
Qed.

(** X4.  When no row has a positive bid, the Tab 2 recomputation gives
    every row a price score of 0 and executes no division. *)
Theorem recompute_tab2_without_positive_bid
    (max_s4 : Z) (target_price : Q) (df : DataFrame) :
  Forall (fun row => col_price row <= 0) df ->
  exists df',
    recompute max_s4 target_price MinRatio df = Done df' 0 /\
    Forall (fun row' => col_s4 row' = 0) df'.
Proof.
  intro Hall.
  destruct (recompute_pass max_s4 target_price MinRatio df)
    as (df' & n & E & Hrows & _).
  assert (Hn : n = 0%nat).
  { destruct df as [|row df]; [simpl in E; now injection E as _ <-|].
    destruct (apply_rows_no_division
                (calc_min_ratio max_s4 (min_price (row :: df))) (row :: df))
      as (res & Eres).
    - eapply Forall_impl; [|exact Hall]. intros r Hr.
      rewrite (calc_min_ratio_zero max_s4 _ r); eauto.
    - unfold recompute, recompute_tab2 in E. simpl negb in E.
      cbv iota zeta in E. rewrite Eres in E. simpl in E.
      now injection E as _ <-. }
  subst n. exists df'. split; [exact E|].
  apply (Forall2_right_with _ _ _ _ _ Hrows Hall).
  intros row row' Hle ((k & Ek) & _). unfold price_score in Ek.
  rewrite (calc_min_ratio_zero max_s4 _ row) in Ek by now left.
  simpl in Ek. now injection Ek as <- _.
Qed.

Lemma recompute_tab2_without_positive_bid_witness :
  exists df',
    recompute 90 420 MinRatio
      [mkRow "A" 10 84.6 10 0 0 25 0; mkRow "B" 8 69.3 8 0 0 25 0]
    = Done df' 0 /\
    Forall (fun row' => col_s4 row' = 0) df'.
Proof.
  apply (recompute_tab2_without_positive_bid 90 420
           [mkRow "A" 10 84.6 10 0 0 25 0; mkRow "B" 8 69.3 8 0 0 25 0]).
  repeat constructor; vm_compute; discriminate.
Defined.

(** X5.  Within one table, a lower positive bid never scores less than
    a higher one under the Tab 2 rule (non-negative maximum). *)
Theorem min_ratio_lower_bid_scores_higher
    (max_s4 : Z) (target_price : Q) (df : DataFrame) (a b : Row) :
  (0 <= max_s4)%Z -> 0 < col_price a -> col_price a <= col_price b ->
  exists sa sb na nb,
    price_score max_s4 target_price MinRatio df a = Done sa na /\
    price_score max_s4 target_price MinRatio df b = Done sb nb /\
    sb <= sa.
Proof.
  intros Hmax Ha Hab. pose proof (float_nonneg max_s4 Hmax) as HM.
  destruct (Qlt_le_dec 0 (min_price df)) as [Hm|Hm].
  - pose proof (calc_min_ratio_ratio max_s4 (min_price df) a Ha Hm) as Ea.
    assert (Hb : 0 < col_price b) by lra.
    pose proof (calc_min_ratio_ratio max_s4 (min_price df) b Hb Hm) as Eb.
    rewrite (price_score_of_calc _ target_price MinRatio df _ _ _ _ Ea).
    rewrite (price_score_of_calc _ target_price MinRatio df _ _ _ _ Eb).
    do 4 eexists. split; [reflexivity|]. split; [reflexivity|].
    apply ratio_monotone; try assumption. nra.
  - assert (Ea : calc_min_ratio max_s4 (min_price df) a = Done (0, row_sum a 0) 0)
      by (apply calc_min_ratio_zero; now right).
    assert (Eb : calc_min_ratio max_s4 (min_price df) b = Done (0, row_sum b 0) 0)
      by (apply calc_min_ratio_zero; now right).
    rewrite (price_score_of_calc _ target_price MinRatio df _ _ _ _ Ea).
    rewrite (price_score_of_calc _ target_price MinRatio df _ _ _ _ Eb).
    do 4 eexists. split; [reflexivity|]. split; [reflexivity|].
    apply Qle_refl.
Qed.

Lemma min_ratio_lower_bid_scores_higher_witness :
  exists sa sb na nb,
    price_score 90 420 MinRatio (get_initial_data 10 90 10 25)
      (mkRow "C" 6 54.9 6 340 0 25 0) = Done sa na /\
    price_score 90 420 MinRatio (get_initial_data 10 90 10 25)
      (mkRow "B" 8 69.3 8 380 0 25 0) = Done sb nb /\
    sb <= sa.
Proof.
  apply (min_ratio_lower_bid_scores_higher 90 420
           (get_initial_data 10 90 10 25)
           (mkRow "C" 6 54.9 6 340 0 25 0) (mkRow "B" 8 69.3 8 380 0 25 0)).
  - lia.
  - reflexivity.
  - vm_compute. discriminate.
Defined.

(** X6.  With a positive maximum, every row of the table with a positive
    bid gets a positive Tab 2 price score, and it gets the full maximum
    exactly when its bid equals the lowest positive bid. *)
Theorem min_ratio_full_score_iff_lowest
    (max_s4 : Z) (target_price : Q) (df : DataFrame) (row : Row) :
  (0 < max_s4)%Z -> In row df -> 0 < col_price row ->
  exists s4 n,
    price_score max_s4 target_price MinRatio df row = Done s4 n /\
    0 < s4 /\
    (s4 == float max_s4 <-> col_price row == min_price df).
Proof.
  intros Hmax Hin Hp.
  assert (HM : 0 < float max_s4) by (unfold float, Qlt; simpl; lia).
  destruct (min_price_le_row df row Hin Hp) as [Hm Hle].
  pose proof (calc_min_ratio_ratio max_s4 (min_price df) row Hp Hm) as E.
  rewrite (price_score_of_calc _ target_price MinRatio df _ _ _ _ E).
  do 2 eexists. split; [reflexivity|].
  set (m := min_price df) in *. set (p := col_price row) in *.
  set (M := float max_s4) in *.
  assert (Hr : 0 < m / p) by (apply Qlt_shift_div_l; lra).
  assert (Hmp : m / p * p == m) by (field; lra).
  split; [nra|]. split.
  - intro Hs.
    assert (H1 : m / p == 1).
    { assert (Hz : (m / p - 1) * M == 0) by lra.
      apply Qmult_integral in Hz. destruct Hz; lra. }
    rewrite H1 in Hmp. lra.
  - intro Hpm. assert (H1 : m / p == 1) by (rewrite Hpm; field; lra).
    rewrite H1. ring.
Qed.

Lemma min_ratio_full_score_iff_lowest_witness :
  exists s4 n,
    price_score 90 420 MinRatio (get_initial_data 10 90 10 25)
      (mkRow "B社" (float 10 * 0.8) (float 90 * 0.77) (float 10 * 0.8)
             380.0 0 (float 25) 0) = Done s4 n /\
    0 < s4 /\
    (s4 == float 90 <-> 380.0 == min_price (get_initial_data 10 90 10 25)).
Proof.
  apply (min_ratio_full_score_iff_lowest 90 420 (get_initial_data 10 90 10 25)
           (mkRow "B社" (float 10 * 0.8) (float 90 * 0.77) (float 10 * 0.8)
                  380.0 0 (float 25) 0)).
  - lia.
  - simpl. right. left. reflexivity.
  - reflexivity.
Defined.

Lemma valid_prices_insert (pre post : DataFrame) (new : Row) (q : Q) :
  In q (valid_prices (pre ++ post)) ->
  In q (valid_prices (pre ++ new :: post)).
Proof.
  change (pre ++ new :: post) with (pre ++ [new] ++ post).
  rewrite !valid_prices_app, !in_app_iff. tauto.
Qed.

(** X7.  Adding a row never raises the Tab 2 price score of the rows
    already in the table (non-negative maximum): a new bid can only
    lower the minimum the others are measured against. *)
Theorem min_ratio_new_row_never_raises
    (max_s4 : Z) (target_price : Q) (pre post : DataFrame) (new row : Row) :
  (0 <= max_s4)%Z -> In row (pre ++ post) ->
  exists s4 s4' n n',
    price_score max_s4 target_price MinRatio (pre ++ post) row = Done s4 n /\
    price_score max_s4 target_price MinRatio (pre ++ new :: post) row
    = Done s4' n' /\
    s4' <= s4.
Proof.
  intros Hmax Hin. pose proof (float_nonneg max_s4 Hmax) as HM.
  destruct (Qlt_le_dec 0 (col_price row)) as [Hp|Hp].
  - destruct (min_price_le_row (pre ++ post) row Hin Hp) as [Hm _].
    assert (Hin' : In row (pre ++ new :: post)).
    { apply in_app_iff. apply in_app_iff in Hin. simpl. tauto. }
    destruct (min_price_le_row (pre ++ new :: post) row Hin' Hp) as [Hm' _].
    assert (Hle : min_price (pre ++ new :: post) <= min_price (pre ++ post)).
    { assert (Hne : valid_prices (pre ++ post) <> []).
      { intro Hnone. rewrite (min_price_none _ Hnone) in Hm. lra. }
      assert (Hne' : valid_prices (pre ++ new :: post) <> []).
      { intro Hnone. rewrite (min_price_none _ Hnone) in Hm'. lra. }
      apply (proj2 (min_price_spec _ Hne')).
      apply valid_prices_insert. apply (proj1 (min_price_spec _ Hne)). }
    pose proof (calc_min_ratio_ratio max_s4 _ row Hp Hm) as E.
    pose proof (calc_min_ratio_ratio max_s4 _ row Hp Hm') as E'.
    rewrite (price_score_of_calc _ target_price MinRatio _ _ _ _ _ E).
    rewrite (price_score_of_calc _ target_price MinRatio _ _ _ _ _ E').
    do 4 eexists. split; [reflexivity|]. split; [reflexivity|].
    apply ratio_monotone; try assumption. nra.
  - assert (E : forall mp, calc_min_ratio max_s4 mp row = Done (0, row_sum row 0) 0)
      by (intro mp; apply calc_min_ratio_zero; now left).
    rewrite (price_score_of_calc _ target_price MinRatio _ _ _ _ _ (E _)).
    rewrite (price_score_of_calc _ target_price MinRatio _ _ _ _ _ (E _)).
    do 4 eexists. split; [reflexivity|]. split; [reflexivity|].
    apply Qle_refl.
Qed.

Lemma min_ratio_new_row_never_raises_witness :
  exists s4 s4' n n',
    price_score 90 420 MinRatio
      ([mkRow "A" 10 84.6 10 420 0 25 0] ++ [mkRow "B" 8 69.3 8 380 0 25 0])
      (mkRow "A" 10 84.6 10 420 0 25 0) = Done s4 n /\
    price_score 90 420 MinRatio
      ([mkRow "A" 10 84.6 10 420 0 25 0] ++ mkRow "C" 6 54.9 6 340 0 25 0
         :: [mkRow "B" 8 69.3 8 380 0 25 0])
      (mkRow "A" 10 84.6 10 420 0 25 0) = Done s4' n' /\
    s4' <= s4.
Proof.
  apply (min_ratio_new_row_never_raises 90 420
           [mkRow "A" 10 84.6 10 420 0 25 0] [mkRow "B" 8 69.3 8 380 0 25 0]
           (mkRow "C" 6 54.9 6 340 0 25 0) (mkRow "A" 10 84.6 10 420 0 25 0)).
  - lia.
  - simpl. left. reflexivity.
Defined.

(** * The page as a whole *)

(** ** Table equality, the winner and the chart of a non-empty table *)

Lemma row_equals_refl (a : Row) : row_equals a a = true.
Proof.
  unfold row_equals. rewrite String.eqb_refl.
  repeat (rewrite (proj2 (Qeq_bool_iff _ _) (Qeq_refl _))). reflexivity.
Qed.

Lemma df_equals_refl (d : DataFrame) : df_equals d d = true.
Proof.
  induction d as [|a d IH]; simpl; [reflexivity|].
  now rewrite row_equals_refl, IH.
Qed.

Lemma rank_nonempty (row : Row) (df : DataFrame) :
  exists win score, rank (row :: df) = Some (win, score).
Proof.
  unfold rank. simpl empty. cbv iota.
  change (map col_total (row :: df)) with (col_total row :: map col_total df).
  destruct (idxmax_spec (col_total row) (map col_total df))
    as (i & t & Ei & Hnth & _).
  rewrite Ei. unfold series_max.
  change (col_total row :: map col_total df)
    with (map col_total (row :: df)) in Hnth.
  destruct (nth_error_map_total _ _ _ Hnth) as (r & Hr & _).
  rewrite Hr. eauto.
Qed.

(** With the palette bound and not empty, the loop adds one bar per
    listed score column that exists, in order, each with the names as x
    and that column as y. *)
Lemma add_traces_bound (c0 : string) (cs : list string) (df : DataFrame)
    (its : list string) :
  forall i,
  exists bars,
    add_traces (Some (c0 :: cs)) df i its = inr bars /\
    map bar_name bars
    = filter (fun item => match number_column item with
                          | Some _ => true
                          | None => false
                          end) its /\
    Forall (fun b => bar_x b = map col_name df /\
                     exists col, number_column (bar_name b) = Some col /\
                                 bar_y b = map col df) bars.
Proof.
  induction its as [|item rest IH]; intro i; simpl.
  - exists []. repeat split. constructor.
  - destruct (IH (S i)) as (bars & E & Hnames & Hbars).
    destruct (number_column item) as [col|] eqn:Hcol.
    + rewrite E. eexists. split; [reflexivity|]. simpl. split.
      * now rewrite Hnames.
      * constructor; [|exact Hbars]. simpl. split; [reflexivity|]. eauto.
    + exists bars. auto.
Qed.

Lemma add_traces_unbound (df : DataFrame) :
  add_traces None df 0 items = inl (NameError "colors").
Proof. reflexivity. Qed.

Section PageFacts.

Variables max_s1 max_s2 max_s3 max_s4 max_s5 : Z.
Variable target_price : Q.
Variable Pastel : list string.
Variable api : StreamlitApi.
Variable data_editor : string -> DataFrame -> DataFrame.

Local Abbreviation show :=
  (show_results max_s1 max_s2 max_s3 max_s4 max_s5).
Local Abbreviation run_page :=
  (run max_s1 max_s2 max_s3 max_s4 max_s5 target_price Pastel api data_editor).
Local Abbreviation initial :=
  (init_session max_s1 max_s2 max_s3 max_s5).

Lemma show_results_empty (tab title : string) (colors : option (list string)) :
  show tab title colors [] = ([], None).
Proof. reflexivity. Qed.

Lemma show_results_bound (tab title : string) (c0 : string)
    (cs : list string) (df : DataFrame) :
  exists shown, show tab title (Some (c0 :: cs)) df = (shown, None).
Proof.
  destruct df as [|row df]; [now exists []|].
  unfold show_results. simpl empty. simpl negb. cbv iota.
  destruct (rank_nonempty row df) as (win & score & ->).
  destruct (add_traces_bound c0 cs (row :: df) items 0%nat) as (bars & -> & _).
  eauto.
Qed.

Lemma show_results_unbound (tab title : string) (row : Row) (df : DataFrame) :
  exists win score,
    show tab title None (row :: df)
    = ([InfoBest tab win score], Some (NameError "colors")).
Proof.
  unfold show_results. simpl empty. simpl negb. cbv iota.
  destruct (rank_nonempty row df) as (win & score & ->).
  rewrite add_traces_unbound. eauto.
Qed.

(** The recomputation inside a run always returns, with as many rows as
    the editor handed over. *)
Lemma recompute_keeps_shape (m : Model) (df : DataFrame) :
  exists t n,
    recompute max_s4 target_price m df = Done t n /\
    Forall2 same_inputs df t /\
    recompute max_s4 target_price m t = Done t n.
Proof.
  destruct (recompute_pass max_s4 target_price m df) as (t & n & E & Hall & E').
  exists t, n. split; [exact E|]. split; [|exact E'].
  eapply Forall2_impl; [|exact Hall]. intros a b (_ & H & _). exact H.
Qed.

Lemma save_and_reload_cases (stored edited : DataFrame) :
  (df_equals edited stored = true /\
   save_and_reload api stored edited = (stored, [], false))
  \/ (df_equals edited stored = false /\
      exists out restart,
        save_and_reload api stored edited = (edited, out, restart)).
Proof.
  unfold save_and_reload. destruct (df_equals edited stored); simpl.
  - now left.
  - right. split; [reflexivity|]. destruct (safe_rerun api); eauto.
Qed.

End PageFacts.

(** ** How a run can end *)

Lemma Forall2_nil_r {A B : Type} (R : A -> B -> Prop) (l : list A) :
  Forall2 R l [] -> l = [].
Proof. intro H. now inversion H. Qed.

Lemma Forall2_cons_r {A B : Type} (R : A -> B -> Prop) (l : list A)
    (b : B) (l' : list B) :
  Forall2 R l (b :: l') -> l <> [].
Proof. intro H. inversion H; subst. discriminate. Qed.

Lemma show_results_empty_palette
    (max_s1 max_s2 max_s3 max_s4 max_s5 : Z) (tab title : string)
    (row : Row) (df : DataFrame) :
  exists win score,
    show_results max_s1 max_s2 max_s3 max_s4 max_s5 tab title (Some [])
                 (row :: df)
    = ([InfoBest tab win score], Some ZeroDivision).
Proof.
  unfold show_results. simpl empty. simpl negb. cbv iota.
  destruct (rank_nonempty row df) as (win & score & ->).
  change (add_traces (Some []) (row :: df) 0 items)
    with (@inl PyError (list Bar) ZeroDivision).
  eauto.
Qed.

(** X8.  A run of the page ends in [NameError] in one situation only:
    the table of Tab 1 is empty while the table of Tab 2 is not, and the
    name is [colors].  [colors] is assigned in the display block of
    Tab 1, which an empty table skips, and is first used in the chart
    loop of Tab 2, which an empty table skips as well. *)
Theorem run_name_error_only_for_unbound_colors
    (max_s1 max_s2 max_s3 max_s4 max_s5 : Z) (target_price : Q)
    (Pastel : list string) (api : StreamlitApi)
    (data_editor : string -> DataFrame -> DataFrame)
    (s : SessionState) (name : string) :
  ending (run max_s1 max_s2 max_s3 max_s4 max_s5 target_price Pastel api
              data_editor s) = Raised (NameError name) ->
  name = "colors"%string /\
  data_editor "editor_tab1"%string
    (fst (init_session max_s1 max_s2 max_s3 max_s5 s)) = [] /\
  data_editor "editor_tab2"%string
    (snd (init_session max_s1 max_s2 max_s3 max_s5 s)) <> [].
Proof.
  unfold run.
  destruct (init_session max_s1 max_s2 max_s3 max_s5 s) as [stored1 stored2].
  simpl fst. simpl snd.
  destruct (recompute_keeps_shape max_s4 target_price Standard
              (data_editor "editor_tab1"%string stored1))
    as (t1 & n1 & E1 & S1 & _).
  change (recompute max_s4 target_price Standard ?d)
    with (recompute_tab1 max_s4 target_price d) in E1. rewrite E1.
  destruct (save_and_reload api stored1 t1) as [[st1 out1] [|]];
    [simpl; discriminate|].
  destruct (recompute_keeps_shape max_s4 target_price MinRatio
              (data_editor "editor_tab2"%string stored2))
    as (t2 & n2 & E2 & S2 & _).
  change (recompute max_s4 target_price MinRatio ?d)
    with (recompute_tab2 max_s4 d) in E2.
  destruct t1 as [|r1 t1].
  - apply Forall2_nil_r in S1. rewrite show_results_empty, E2.
    destruct (save_and_reload api stored2 t2) as [[st2 out2] [|]];
      [simpl; discriminate|].
    simpl empty. simpl negb. cbv iota.
    destruct t2 as [|r2 t2].
    + rewrite show_results_empty. simpl. discriminate.
    + destruct (show_results_unbound max_s1 max_s2 max_s3 max_s4 max_s5
                  "Tab2" "【別案】評価スコア構成" r2 t2) as (w & sc & ->).
      simpl. intro H. injection H as <-.
      split; [reflexivity|]. split; [exact S1|].
      exact (Forall2_cons_r _ _ _ _ S2).
  - destruct Pastel as [|c0 cs].
    + destruct (show_results_empty_palette max_s1 max_s2 max_s3 max_s4 max_s5
                  "Tab1" "【標準】評価スコア構成" r1 t1) as (w & sc & ->).
      simpl. discriminate.
    + destruct (show_results_bound max_s1 max_s2 max_s3 max_s4 max_s5
                  "Tab1" "【標準】評価スコア構成" c0 cs (r1 :: t1))
        as (shown1 & ->).
      rewrite E2.
      destruct (save_and_reload api stored2 t2) as [[st2 out2] [|]];
        [simpl; discriminate|].
      simpl empty. simpl negb. cbv iota.
      destruct (show_results_bound max_s1 max_s2 max_s3 max_s4 max_s5
                  "Tab2" "【別案】評価スコア構成" c0 cs t2) as (shown2 & ->).
      simpl. discriminate.
Qed.

Lemma run_name_error_only_for_unbound_colors_witness :
  "colors"%string = "colors"%string /\
  (fun (_ : string) (d : DataFrame) => d) "editor_tab1"%string
    (fst (init_session 10 90 10 25
            (mkSession (Some []) (Some [mkRow "B" 8 69.3 8 380 90 25 200.3]))))
  = [] /\
  (fun (_ : string) (d : DataFrame) => d) "editor_tab2"%string
    (snd (init_session 10 90 10 25
            (mkSession (Some []) (Some [mkRow "B" 8 69.3 8 380 90 25 200.3]))))
  <> [].
Proof.
  apply (run_name_error_only_for_unbound_colors 10 90 10 90 25 420
           ["rgb(102, 197, 204)"%string] HasRerun (fun _ d => d)
           (mkSession (Some []) (Some [mkRow "B" 8 69.3 8 380 90 25 200.3]))).
  vm_compute. reflexivity.
Defined.



(** ** The rerun loop *)

Section Reruns.

Variables max_s1 max_s2 max_s3 max_s4 max_s5 : Z.
Variable target_price : Q.
Variable Pastel : list string.
Variable api : StreamlitApi.
Variable data_editor : string -> DataFrame -> DataFrame.

Local Abbreviation run_page :=
  (run max_s1 max_s2 max_s3 max_s4 max_s5 target_price Pastel api data_editor).

(** Whatever was stored before, the table a tab leaves in the session
    state is settled: either the stored table passed the comparison, or
    the recomputed table replaced it. *)
Lemma save_and_reload_settles (m : Model) (stored : DataFrame) :
  exists t n st out restart,
    recompute max_s4 target_price m stored = Done t n /\
    save_and_reload api stored t = (st, out, restart) /\
    settled m max_s4 target_price st /\
    (settled m max_s4 target_price stored ->
     st = stored /\ out = [] /\ restart = false).
Proof.
  destruct (recompute_keeps_shape max_s4 target_price m stored)
    as (t & n & E & _ & E').
  destruct (save_and_reload_cases api stored t)
    as [[Heq Es]|[Hne (out & restart & Es)]].
  - exists t, n, stored, [], false. repeat split; try assumption.
    exists t, n. split; assumption.
  - exists t, n, t, out, restart. split; [exact E|]. split; [exact Es|].
    split.
    + exists t, n. split; [exact E'|apply df_equals_refl].
    + intros (t' & n' & Et' & Heq). rewrite E in Et'.
      injection Et' as <- _. congruence.
Qed.

End Reruns.

Section RerunLoop.

Variables max_s1 max_s2 max_s3 max_s4 max_s5 : Z.
Variable target_price : Q.
Variable Pastel : list string.
Variable api : StreamlitApi.
Variable data_editor : string -> DataFrame -> DataFrame.

Local Abbreviation run_page :=
  (run max_s1 max_s2 max_s3 max_s4 max_s5 target_price Pastel api data_editor).

(** A run over settled tables that the editors hand back untouched. *)
Lemma run_of_settled (d1 d2 : DataFrame) :
  settled Standard max_s4 target_price d1 ->
  settled MinRatio max_s4 target_price d2 ->
  data_editor "editor_tab1"%string d1 = d1 ->
  data_editor "editor_tab2"%string d2 = d2 ->
  ending (run_page (mkSession (Some d1) (Some d2))) <> Restarted /\
  session (run_page (mkSession (Some d1) (Some d2)))
  = mkSession (Some d1) (Some d2).
Proof.
  intros H1 H2 Ed1 Ed2. unfold run.
  change (init_session max_s1 max_s2 max_s3 max_s5 (mkSession (Some d1) (Some d2)))
    with (d1, d2). cbv beta iota.
  rewrite Ed1, Ed2.
  destruct (save_and_reload_settles max_s4 target_price api Standard d1)
    as (t1 & n1 & st1 & out1 & r1 & E1 & Es1 & _ & Hst1).
  destruct (Hst1 H1) as (-> & -> & ->).
  change (recompute max_s4 target_price Standard d1)
    with (recompute_tab1 max_s4 target_price d1) in E1.
  rewrite E1, Es1.
  destruct (show_results max_s1 max_s2 max_s3 max_s4 max_s5 "Tab1"
              "【標準】評価スコア構成" (Some Pastel) t1) as [shown1 [e1|]].
  - split; [discriminate|reflexivity].
  - destruct (save_and_reload_settles max_s4 target_price api MinRatio d2)
      as (t2 & n2 & st2 & out2 & r2 & E2 & Es2 & _ & Hst2).
    destruct (Hst2 H2) as (-> & -> & ->).
    change (recompute max_s4 target_price MinRatio d2)
      with (recompute_tab2 max_s4 d2) in E2.
    rewrite E2, Es2.
    destruct (show_results max_s1 max_s2 max_s3 max_s4 max_s5 "Tab2"
                "【別案】評価スコア構成"
                (if negb (empty t1) then Some Pastel else None) t2)
      as [shown2 [e2|]]; (split; [discriminate|reflexivity]).
Qed.

Hypothesis no_edits : forall key d, data_editor key d = d.

(** Any run leaves a settled table for Tab 1 in the session state. *)
Lemma run_settles_tab1 (s : SessionState) :
  exists d1 d2,
    session (run_page s) = mkSession (Some d1) (Some d2) /\
    settled Standard max_s4 target_price d1.
Proof.
  unfold run.
  destruct (init_session max_s1 max_s2 max_s3 max_s5 s) as [stored1 stored2].
  rewrite !no_edits.
  destruct (save_and_reload_settles max_s4 target_price api Standard stored1)
    as (t1 & n1 & st1 & out1 & r1 & E1 & Es1 & Hset1 & _).
  change (recompute max_s4 target_price Standard stored1)
    with (recompute_tab1 max_s4 target_price stored1) in E1.
  rewrite E1, Es1.
  destruct r1; [simpl; eauto|].
  destruct (show_results max_s1 max_s2 max_s3 max_s4 max_s5 "Tab1"
              "【標準】評価スコア構成" (Some Pastel) t1) as [shown1 [e1|]];
    [simpl; eauto|].
  destruct (recompute_tab2 max_s4 stored2) as [t2 n2|]; [|simpl; eauto].
  destruct (save_and_reload api stored2 t2) as [[st2 out2] [|]];
    [simpl; eauto|].
  destruct (show_results max_s1 max_s2 max_s3 max_s4 max_s5 "Tab2"
              "【別案】評価スコア構成"
              (if negb (empty t1) then Some Pastel else None) t2)
    as [shown2 err2]; simpl; eauto.
Qed.

(** Once Tab 1 is settled, a run leaves it alone and settles Tab 2. *)
Lemma run_settles_tab2 (d1 d2 : DataFrame) :
  Pastel <> [] ->
  settled Standard max_s4 target_price d1 ->
  exists d2',
    session (run_page (mkSession (Some d1) (Some d2)))
    = mkSession (Some d1) (Some d2') /\
    settled MinRatio max_s4 target_price d2'.
Proof.
  intros HP H1. unfold run.
  change (init_session max_s1 max_s2 max_s3 max_s5 (mkSession (Some d1) (Some d2)))
    with (d1, d2). cbv beta iota.
  rewrite !no_edits.
  destruct (save_and_reload_settles max_s4 target_price api Standard d1)
    as (t1 & n1 & st1 & out1 & r1 & E1 & Es1 & _ & Hst1).
  destruct (Hst1 H1) as (-> & -> & ->).
  change (recompute max_s4 target_price Standard d1)
    with (recompute_tab1 max_s4 target_price d1) in E1.
  rewrite E1, Es1.
  destruct Pastel as [|c0 cs]; [congruence|].
  destruct (show_results_bound max_s1 max_s2 max_s3 max_s4 max_s5
              "Tab1" "【標準】評価スコア構成" c0 cs t1) as (shown1 & ->).
  destruct (save_and_reload_settles max_s4 target_price api MinRatio d2)
    as (t2 & n2 & st2 & out2 & r2 & E2 & Es2 & Hset2 & _).
  change (recompute max_s4 target_price MinRatio d2)
    with (recompute_tab2 max_s4 d2) in E2.
  rewrite E2, Es2.
  destruct r2; [simpl; eauto|].
  destruct (show_results max_s1 max_s2 max_s3 max_s4 max_s5 "Tab2"
              "【別案】評価スコア構成"
              (if negb (empty t1) then Some (c0 :: cs) else None) t2)
    as [shown2 err2]; simpl; eauto.
Qed.

End RerunLoop.

(** X10.  No needless restart: when both stored tables are settled
    (recomputing them changes nothing [DataFrame.equals] sees) and the
    editors hand them back unchanged, the run does not call for a
    restart and leaves the session state as it is. *)
Theorem run_on_settled_session_is_stable
    (max_s1 max_s2 max_s3 max_s4 max_s5 : Z) (target_price : Q)
    (Pastel : list string) (api : StreamlitApi)
    (data_editor : string -> DataFrame -> DataFrame) (d1 d2 : DataFrame) :
  settled Standard max_s4 target_price d1 ->
  settled MinRatio max_s4 target_price d2 ->
  data_editor "editor_tab1"%string d1 = d1 ->
  data_editor "editor_tab2"%string d2 = d2 ->
  ending (run max_s1 max_s2 max_s3 max_s4 max_s5 target_price Pastel api
              data_editor (mkSession (Some d1) (Some d2))) <> Restarted /\
  session (run max_s1 max_s2 max_s3 max_s4 max_s5 target_price Pastel api
               data_editor (mkSession (Some d1) (Some d2)))
  = mkSession (Some d1) (Some d2).
Proof.
  intros H1 H2 Ed1 Ed2. now apply run_of_settled.
Qed.

Lemma run_on_settled_session_is_stable_witness :
  ending (run 10 90 10 90 25 420 ["rgb(102, 197, 204)"%string] HasRerun
              (fun _ d => d)
              (mkSession (Some [mkRow "B" 8 69.3 8 300 90 25 200.3])
                         (Some [mkRow "B" 8 69.3 8 380 90 25 200.3])))
  <> Restarted /\
  session (run 10 90 10 90 25 420 ["rgb(102, 197, 204)"%string] HasRerun
               (fun _ d => d)
               (mkSession (Some [mkRow "B" 8 69.3 8 300 90 25 200.3])
                          (Some [mkRow "B" 8 69.3 8 380 90 25 200.3])))
  = mkSession (Some [mkRow "B" 8 69.3 8 300 90 25 200.3])
              (Some [mkRow "B" 8 69.3 8 380 90 25 200.3]).
Proof.
  apply (run_on_settled_session_is_stable 10 90 10 90 25 420
           ["rgb(102, 197, 204)"%string] HasRerun (fun _ d => d)
           [mkRow "B" 8 69.3 8 300 90 25 200.3]
           [mkRow "B" 8 69.3 8 380 90 25 200.3]).
  - eexists; eexists. split; reflexivity.
  - eexists; eexists. split; reflexivity.
  - reflexivity.
  - reflexivity.
Defined.

(** X11.  The rerun loop ends: with a non-empty palette and no edits
    pending (the editors return the stored tables), from any session
    state the third run in a row does not call for a restart -- the
    first two runs can each store one recomputed table, after which
    both are settled. *)
Theorem third_run_does_not_restart
    (max_s1 max_s2 max_s3 max_s4 max_s5 : Z) (target_price : Q)
    (Pastel : list string) (api : StreamlitApi)
    (data_editor : string -> DataFrame -> DataFrame) (s : SessionState) :
  Pastel <> [] ->
  (forall key d, data_editor key d = d) ->
  let run_page :=
    run max_s1 max_s2 max_s3 max_s4 max_s5 target_price Pastel api
        data_editor in
  ending (run_page (session (run_page (session (run_page s))))) <> Restarted.
Proof.
  intros HP Hid run_page. subst run_page.
  destruct (run_settles_tab1 max_s1 max_s2 max_s3 max_s4 max_s5 target_price
              Pastel api data_editor Hid s) as (d1 & d2 & -> & H1).
  destruct (run_settles_tab2 max_s1 max_s2 max_s3 max_s4 max_s5 target_price
              Pastel api data_editor Hid d1 d2 HP H1) as (d2' & -> & H2).
  apply run_of_settled; try assumption; apply Hid.
Qed.

Lemma third_run_does_not_restart_witness :
  let run_page :=
    run 10 90 10 90 25 420 ["rgb(102, 197, 204)"%string] HasRerun
        (fun _ d => d) in
  ending (run_page (session (run_page (session (run_page
            (mkSession None None)))))) <> Restarted.
Proof.
  apply (third_run_does_not_restart 10 90 10 90 25 420
           ["rgb(102, 197, 204)"%string] HasRerun (fun _ d => d)
           (mkSession None None)).
  - discriminate.
  - reflexivity.
Defined.

(** * Column limits, totals and charts *)

Lemma float_total_max_score (max_s1 max_s2 max_s3 max_s4 max_s5 : Z) :
  float (total_max_score max_s1 max_s2 max_s3 max_s4 max_s5)
  == float max_s1 + float max_s2 + float max_s3 + float max_s4 + float max_s5.
Proof.
  unfold total_max_score, float. now rewrite !inject_Z_plus.
Qed.

(** X12.  [recompute] never touches what the evaluator typed: under
    either model the returned table has the rows of the input, in the
    same order, with name, the three technical scores, the bid price and
    the reduction score unchanged. *)
Theorem recompute_keeps_editable_columns
    (max_s4 : Z) (target_price : Q) (m : Model) (df : DataFrame) :
  exists df' n,
    recompute max_s4 target_price m df = Done df' n /\
    List.length df' = List.length df /\
    Forall2 (fun row row' =>
               col_name row' = col_name row /\ col_s1 row' = col_s1 row /\
               col_s2 row' = col_s2 row /\ col_s3 row' = col_s3 row /\
               col_price row' = col_price row /\ col_s5 row' = col_s5 row)
            df df'.
Proof.
  destruct (recompute_keeps_shape max_s4 target_price m df)
    as (df' & n & E & Hall & _).
  exists df', n. split; [exact E|]. split.
  - symmetry. eapply Forall2_length. exact Hall.
  - eapply Forall2_impl; [|exact Hall].
    intros a b (H0 & H1 & H2 & H3 & H4 & H5). repeat split; congruence.
Qed.

Lemma recompute_keeps_editable_columns_witness :
  exists df' n,
    recompute 90 420 Standard (get_initial_data 10 90 10 25) = Done df' n /\
    List.length df' = List.length (get_initial_data 10 90 10 25) /\
    Forall2 (fun row row' =>
               col_name row' = col_name row /\ col_s1 row' = col_s1 row /\
               col_s2 row' = col_s2 row /\ col_s3 row' = col_s3 row /\
               col_price row' = col_price row /\ col_s5 row' = col_s5 row)
            (get_initial_data 10 90 10 25) df'.
Proof.
  exact (recompute_keeps_editable_columns 90 420 Standard
           (get_initial_data 10 90 10 25)).
Defined.

(** X13.  For non-negative sidebar maxima, every row of the initial
    table respects the limits of the column configuration. *)
Theorem initial_data_is_admitted (max_s1 max_s2 max_s3 max_s5 : Z) :
  (0 <= max_s1)%Z -> (0 <= max_s2)%Z -> (0 <= max_s3)%Z -> (0 <= max_s5)%Z ->
  Forall (row_admitted (get_column_config max_s1 max_s2 max_s3 max_s5))
         (get_initial_data max_s1 max_s2 max_s3 max_s5).
Proof.
  intros H1 H2 H3 H5.
  pose proof (float_nonneg _ H1). pose proof (float_nonneg _ H2).
  pose proof (float_nonneg _ H3). pose proof (float_nonneg _ H5).
  unfold get_initial_data, row_admitted, admits, get_column_config.
  repeat constructor; simpl; lra.
Qed.

Lemma initial_data_is_admitted_witness :
  Forall (row_admitted (get_column_config 10 90 10 25))
         (get_initial_data 10 90 10 25).
Proof.
  apply (initial_data_is_admitted 10 90 10 25); lia.
Defined.

(** X14.  When every row respects the column limits and the price
    maximum is non-negative, every 合計点 of the recomputed table lies
    between 0 and [total_max_score], hence inside the y range
    [0, total_max_score * 1.1] of the chart, under either model. *)
Theorem recomputed_totals_fit_the_chart
    (max_s1 max_s2 max_s3 max_s4 max_s5 : Z) (target_price : Q)
    (m : Model) (df : DataFrame) :
  (0 <= max_s4)%Z ->
  Forall (row_admitted (get_column_config max_s1 max_s2 max_s3 max_s5)) df ->
  exists df' n,
    recompute max_s4 target_price m df = Done df' n /\
    Forall (fun row' =>
              0 <= col_total row' /\
              col_total row'
              <= float (total_max_score max_s1 max_s2 max_s3 max_s4 max_s5) /\
              col_total row'
              <= float (total_max_score max_s1 max_s2 max_s3 max_s4 max_s5)
                 * 1.1) df'.
Proof.
  intros Hmax Hadm.
  destruct (recompute_pass max_s4 target_price m df)
    as (df' & n & E & Hall & _).
  exists df', n. split; [exact E|].
  assert (Hin : Forall (fun row =>
                          In row df /\
                          row_admitted
                            (get_column_config max_s1 max_s2 max_s3 max_s5) row)
                       df).
  { rewrite Forall_forall in *. auto. }
  apply (Forall2_right_with _ _ _ _ _ Hall Hin).
  intros row row' (Hrow & A1 & A2 & A3 & _ & A5)
         ((k & Ek) & (_ & E1 & E2 & E3 & _ & E5) & Hsum).
  unfold admits in A1, A2, A3, A5. simpl in A1, A2, A3, A5.
  assert (Hs4 : 0 <= col_s4 row' /\ col_s4 row' <= float max_s4).
  { unfold price_score in Ek. destruct m.
    - destruct (calc_standard_bounds max_s4 target_price row Hmax)
        as (s & j & Es & Hb).
      rewrite Es in Ek. simpl in Ek. injection Ek as <- _. exact Hb.
    - destruct (calc_min_ratio_bounds max_s4 df row Hmax Hrow)
        as (s & j & Es & Hb).
      rewrite Es in Ek. simpl in Ek. injection Ek as <- _. exact Hb. }
  pose proof (float_total_max_score max_s1 max_s2 max_s3 max_s4 max_s5) as Ht.
  rewrite Hsum, <- E1, <- E2, <- E3, <- E5. lra.
Qed.

Lemma recomputed_totals_fit_the_chart_witness :
  exists df' n,
    recompute 90 420 MinRatio (get_initial_data 10 90 10 25) = Done df' n /\
    Forall (fun row' =>
              0 <= col_total row' /\
              col_total row' <= float (total_max_score 10 90 10 90 25) /\
              col_total row' <= float (total_max_score 10 90 10 90 25) * 1.1)
           df'.
Proof.
  apply (recomputed_totals_fit_the_chart 10 90 10 90 25 420 MinRatio
           (get_initial_data 10 90 10 25)).
  - lia.
  - unfold get_initial_data, row_admitted, admits, get_column_config.
    repeat constructor; vm_compute; discriminate.
Defined.

Lemma add_traces_items (c0 : string) (cs : list string) (df : DataFrame) :
  exists k1 k2 k3 k4 k5,
    add_traces (Some (c0 :: cs)) df 0 items
    = inr [mkBar "①実績" (map col_name df) (map col_s1 df) k1;
           mkBar "②技術提案" (map col_name df) (map col_s2 df) k2;
           mkBar "③地域貢献" (map col_name df) (map col_s3 df) k3;
           mkBar "④工事費評価" (map col_name df) (map col_s4 df) k4;
           mkBar "⑤削減提案" (map col_name df) (map col_s5 df) k5].
Proof. do 5 eexists. reflexivity. Qed.

Lemma nth_map_row (col : Row -> Q) (df : DataFrame) (j : nat) (row : Row) :
  nth_error df j = Some row -> nth j (map col df) 0 = col row.
Proof.
  revert j. induction df as [|r df IH]; intros [|j] H; simpl in *;
    try discriminate.
  - now injection H as ->.
  - now apply IH.
Qed.

(** X15.  On a recomputed, non-empty table and with the palette bound,
    the display block shows the winner that [rank] selects and a chart
    of five bars, named as [items] in that order, whose values add up,
    company by company, to that company's 合計点. *)
Theorem chart_bars_add_up_to_total
    (max_s1 max_s2 max_s3 max_s4 max_s5 : Z) (target_price : Q)
    (m : Model) (df df' : DataFrame) (n : nat)
    (tab title c0 : string) (cs : list string) :
  recompute max_s4 target_price m df = Done df' n -> df <> [] ->
  exists win score bars,
    show_results max_s1 max_s2 max_s3 max_s4 max_s5 tab title
                 (Some (c0 :: cs)) df'
    = ([InfoBest tab win score;
        PlotlyChart title bars
          (float (total_max_score max_s1 max_s2 max_s3 max_s4 max_s5) * 1.1)],
       None) /\
    rank df' = Some (win, score) /\
    map bar_name bars = items /\
    forall j row, nth_error df' j = Some row ->
                  stack_sum bars j == col_total row.
Proof.
  intros E Hne.
  destruct (recompute_pass max_s4 target_price m df)
    as (t & k & Et & Hall & _).
  rewrite E in Et. injection Et as <- <-.
  destruct df' as [|r0 df'].
  { apply Forall2_nil_r in Hall. contradiction. }
  destruct (rank_nonempty r0 df') as (win & score & Er).
  destruct (add_traces_items c0 cs (r0 :: df'))
    as (k1 & k2 & k3 & k4 & k5 & Ebars).
  exists win, score,
    [mkBar "①実績" (map col_name (r0 :: df')) (map col_s1 (r0 :: df')) k1;
     mkBar "②技術提案" (map col_name (r0 :: df')) (map col_s2 (r0 :: df')) k2;
     mkBar "③地域貢献" (map col_name (r0 :: df')) (map col_s3 (r0 :: df')) k3;
     mkBar "④工事費評価" (map col_name (r0 :: df')) (map col_s4 (r0 :: df')) k4;
     mkBar "⑤削減提案" (map col_name (r0 :: df')) (map col_s5 (r0 :: df')) k5].
  unfold show_results. simpl empty. simpl negb. cbv iota.
  rewrite Er, Ebars. split; [reflexivity|]. split; [reflexivity|].
  split; [reflexivity|].
  intros j row Hj. unfold stack_sum. cbn [fold_right bar_y].
  rewrite !(nth_map_row _ _ _ _ Hj).
  assert (Hsum : total_is_sum row).
  { assert (Hf : Forall total_is_sum (r0 :: df')).
    { apply (Forall2_right _ _ _ _ Hall). intros a b (_ & _ & H). exact H. }
    rewrite Forall_forall in Hf. apply Hf. eapply nth_error_In. exact Hj. }
  rewrite Hsum. ring.
Qed.

Lemma chart_bars_add_up_to_total_witness :
  exists win score bars,
    show_results 10 90 10 90 25 "Tab1" "t" (Some ["c"%string])
                 [mkRow "B" 8 69.3 8 300 90 25 (8 + 69.3 + 8 + 90 + 25)]
    = ([InfoBest "Tab1" win score;
        PlotlyChart "t" bars (float (total_max_score 10 90 10 90 25) * 1.1)],
       None) /\
    rank [mkRow "B" 8 69.3 8 300 90 25 (8 + 69.3 + 8 + 90 + 25)]
    = Some (win, score) /\
    map bar_name bars = items /\
    forall j row,
      nth_error [mkRow "B" 8 69.3 8 300 90 25 (8 + 69.3 + 8 + 90 + 25)] j
      = Some row ->
      stack_sum bars j == col_total row.
Proof.
  apply (chart_bars_add_up_to_total 10 90 10 90 25 420 Standard
           [mkRow "B" 8 69.3 8 300 0 25 0]
           [mkRow "B" 8 69.3 8 300 90 25 (8 + 69.3 + 8 + 90 + 25)]
           0 "Tab1" "t" "c" []).
  - reflexivity.
  - discriminate.
Defined.

(** * Tab 2 under a change of row order *)

Lemma min_price_same_valid (df df' : DataFrame) :
  (forall q, In q (valid_prices df) <-> In q (valid_prices df')) ->
  min_price df == min_price df'.
Proof.
  intro Hsame.
  assert (Hnil : forall a b : DataFrame,
             (forall q, In q (valid_prices a) -> In q (valid_prices b)) ->
             valid_prices b = [] -> valid_prices a = []).
  { intros a b Hab Eb. destruct (valid_prices a) as [|q qs] eqn:Ea;
      [reflexivity|].
    exfalso. rewrite Eb in Hab. apply (Hab q). now left. }
  assert (Hdec : valid_prices df = [] \/ valid_prices df <> []).
  { destruct (valid_prices df); [now left | right; discriminate]. }
  destruct Hdec as [E|Hne].
  - assert (E' : valid_prices df' = []).
    { apply (Hnil df' df); [|exact E]. intro q. apply Hsame. }
    now rewrite (min_price_none df E), (min_price_none df' E').
  - assert (Hne' : valid_prices df' <> []).
    { intro E'. apply Hne. apply (Hnil df df'); [|exact E'].
      intro q. apply Hsame. }
    destruct (min_price_spec df Hne) as [Hin Hlow].
    destruct (min_price_spec df' Hne') as [Hin' Hlow'].
    apply Qle_antisym.
    + apply Hlow. now apply Hsame.
    + apply Hlow'. now apply Hsame.
Qed.

(** The Tab 2 price score depends on the minimum as a number only. *)
Lemma calc_min_ratio_same_minimum (max_s4 : Z) (mp mp' : Q) (row : Row) :
  mp == mp' ->
  exists s s' n,
    calc_min_ratio max_s4 mp row = Done (s, row_sum row s) n /\
    calc_min_ratio max_s4 mp' row = Done (s', row_sum row s') n /\
    s == s'.
Proof.
  intro Hm.
  destruct (calc_min_ratio_cases max_s4 mp row) as [(Hp & Hpos & E)|[Hz E]].
  - rewrite E, (calc_min_ratio_ratio max_s4 mp' row Hp) by lra.
    do 3 eexists. split; [reflexivity|]. split; [reflexivity|].
    now rewrite Hm.
  - rewrite E, (calc_min_ratio_zero max_s4 mp' row)
      by (destruct Hz; [now left | right; lra]).
    do 3 eexists. split; [reflexivity|]. split; reflexivity.
Qed.

(** X16.  The order of the rows does not matter for the Tab 2 price
    score: in a table with the same rows in another order every row gets
    the same price score. *)
Theorem min_ratio_ignores_row_order
    (max_s4 : Z) (target_price : Q) (df df' : DataFrame) (row : Row) :
  Permutation df df' ->
  exists s s' n,
    price_score max_s4 target_price MinRatio df row = Done s n /\
    price_score max_s4 target_price MinRatio df' row = Done s' n /\
    s == s'.
Proof.
  intro Hperm.
  assert (Hm : min_price df == min_price df').
  { apply min_price_same_valid. intro q. rewrite !valid_prices_in.
    split; intros (r & Hin & H); exists r; (split; [|exact H]).
    - now apply (Permutation_in r Hperm).
    - now apply (Permutation_in r (Permutation_sym Hperm)). }
  destruct (calc_min_ratio_same_minimum max_s4 _ _ row Hm)
    as (s & s' & n & E & E' & Hs).
  rewrite (price_score_of_calc _ target_price MinRatio df _ _ _ _ E).
  rewrite (price_score_of_calc _ target_price MinRatio df' _ _ _ _ E').
  do 3 eexists. split; [reflexivity|]. split; [reflexivity|exact Hs].
Qed.

Lemma min_ratio_ignores_row_order_witness :
  exists s s' n,
    price_score 90 420 MinRatio
      [mkRow "A" 10 84.6 10 420 0 25 0; mkRow "B" 8 69.3 8 380 0 25 0]
      (mkRow "A" 10 84.6 10 420 0 25 0) = Done s n /\
    price_score 90 420 MinRatio
      [mkRow "B" 8 69.3 8 380 0 25 0; mkRow "A" 10 84.6 10 420 0 25 0]
      (mkRow "A" 10 84.6 10 420 0 25 0) = Done s' n /\
    s == s'.
Proof.
  apply (min_ratio_ignores_row_order 90 420
           [mkRow "A" 10 84.6 10 420 0 25 0; mkRow "B" 8 69.3 8 380 0 25 0]
           [mkRow "B" 8 69.3 8 380 0 25 0; mkRow "A" 10 84.6 10 420 0 25 0]
           (mkRow "A" 10 84.6 10 420 0 25 0)).
  apply perm_swap.
Defined.

(** * Recomputation followed by winner selection *)

Lemma rank_first_maximum (r0 : Row) (df : DataFrame) :
  exists i row score,
    rank (r0 :: df) = Some (col_name row, score) /\
    nth_error (r0 :: df) i = Some row /\
    score == col_total row /\
    (forall r, In r (r0 :: df) -> col_total r <= col_total row) /\
    (forall j r, (j < i)%nat -> nth_error (r0 :: df) j = Some r ->
                 col_total r < col_total row).
Proof.
  unfold rank. simpl empty. cbv iota.
  change (map col_total (r0 :: df)) with (col_total r0 :: map col_total df).
  destruct (idxmax_spec (col_total r0) (map col_total df))
    as (i & t & Ei & Hnth & Hall & Hfirst).
  rewrite Ei. unfold series_max.
  change (col_total r0 :: map col_total df)
    with (map col_total (r0 :: df)) in Hnth, Hall, Hfirst.
  destruct (nth_error_map_total _ _ _ Hnth) as (row & Hrow & Et).
  rewrite Hrow. subst t. exists i, row. eexists.
  split; [reflexivity|]. split; [exact Hrow|]. split; [|split].
  - apply Qle_antisym.
    + apply Hall. apply (fold_max_in (map col_total df) (col_total r0)).
    + apply (fold_max_ge (map col_total df) (col_total r0)).
      change (In (col_total row) (map col_total (r0 :: df))).
      apply in_map. eapply nth_error_In. exact Hrow.
  - intros r Hr. apply Hall. now apply in_map.
  - intros j r Hj Hr. apply (Hfirst j); [exact Hj|].
    rewrite nth_error_map, Hr. reflexivity.
Qed.

Lemma Forall2_nth_error_r {A B : Type} (R : A -> B -> Prop)
    (l : list A) (l' : list B) (i : nat) (b : B) :
  Forall2 R l l' -> nth_error l' i = Some b ->
  exists a, nth_error l i = Some a /\ R a b.
Proof.
  intro H. revert i. induction H as [|x y l l' Hxy _ IH]; intros [|i] Hi;
    simpl in *; try discriminate.
  - injection Hi as <-. eauto.
  - now apply IH.
Qed.

(** X19.  Recompute, then rank: for a non-empty table, under either
    model, the company shown as best is the row at some position of the
    edited table; the score shown is the sum of that row's three
    technical scores, its reduction score and the price score the model
    gives it; and no row of the recomputed table has a larger 合計点. *)
Theorem best_company_after_recompute
    (max_s4 : Z) (target_price : Q) (m : Model) (df : DataFrame) :
  df <> [] ->
  exists df' n i row s4 k score,
    recompute max_s4 target_price m df = Done df' n /\
    rank df' = Some (col_name row, score) /\
    nth_error df i = Some row /\
    price_score max_s4 target_price m df row = Done s4 k /\
    score == col_s1 row + col_s2 row + col_s3 row + s4 + col_s5 row /\
    Forall (fun r' => col_total r' <= score) df'.
Proof.
  intro Hne.
  destruct (recompute_pass max_s4 target_price m df)
    as (df' & n & E & Hall & _).
  destruct df' as [|r0 df'].
  { apply Forall2_nil_r in Hall. contradiction. }
  destruct (rank_first_maximum r0 df')
    as (i & row' & score & Er & Hi & Hscore & Hmax & _).
  destruct (Forall2_nth_error_r _ _ _ _ _ Hall Hi)
    as (row & Hrow & (k & Ek) & (E0 & E1 & E2 & E3 & _ & E5) & Hsum).
  exists (r0 :: df'), n, i, row, (col_s4 row'), k, score.
  split; [exact E|]. split; [now rewrite E0|]. split; [exact Hrow|].
  split; [exact Ek|]. split.
  - rewrite Hscore, Hsum, E1, E2, E3, E5. reflexivity.
  - apply Forall_forall. intros r Hr. rewrite Hscore. now apply Hmax.
Qed.

Lemma best_company_after_recompute_witness :
  exists df' n i row s4 k score,
    recompute 90 420 MinRatio (get_initial_data 10 90 10 25) = Done df' n /\
    rank df' = Some (col_name row, score) /\
    nth_error (get_initial_data 10 90 10 25) i = Some row /\
    price_score 90 420 MinRatio (get_initial_data 10 90 10 25) row
    = Done s4 k /\
    score == col_s1 row + col_s2 row + col_s3 row + s4 + col_s5 row /\
    Forall (fun r' => col_total r' <= score) df'.
Proof.
  apply (best_company_after_recompute 90 420 MinRatio
           (get_initial_data 10 90 10 25)).
  discriminate.
Defined.
